(** * MemHeav: the REST routes of the medication tracker

    A shallow embedding of [server/routes.ts] and [shared/schema.ts]:
    the JavaScript values a request carries, the zod schemas the routes
    parse bodies with, the persistence gateway the routes call, and the
    route handlers themselves, written in a state-and-exception monad
    over the store.  The theorems at the end state the access-control
    and caregiver-linking properties of the specification.

    [PUT /api/profile] and the routes registered by [setupAuth] are not
    part of this development. *)

From Stdlib Require Import Ascii.
From stdpp Require Import gmap strings list fin_maps pretty.

Set Warnings "-register-all".
Local Open Scope string_scope.
Local Open Scope Z_scope.

(** ** JavaScript values *)

(** The values that reach a handler: a parsed JSON body, extended with
    [undefined] (an absent property) and [Date] objects (what the date
    schemas produce).  Numbers are the integers; a body holding a
    fractional number is outside the model.  A [Date] is its time value
    in milliseconds. *)
Inductive value :=
  | VUndefined
  | VNull
  | VBool (b : bool)
  | VNum (n : Z)
  | VStr (s : string)
  | VDate (t : Z)
  | VArr (items : list value)
  | VObj (fields : list (string * value)).

(** [fields[k]] on the property list of an object. *)
Fixpoint assoc (k : string) (fields : list (string * value)) : option value :=
  match fields with
  | [] => None
  | (k', v) :: rest => if String.eqb k k' then Some v else assoc k rest
  end.

(** [o.k] for a value [o] that is neither [null] nor [undefined], and a
    key [k] that is not a built-in property of arrays, strings or dates. *)
Definition prop (k : string) (o : value) : value :=
  match o with
  | VObj fields => default VUndefined (assoc k fields)
  | _ => VUndefined
  end.

(** [{ ...fields, k: v }] *)
Definition set_prop (k : string) (v : value) (fields : list (string * value))
  : list (string * value) :=
  filter (λ kv, kv.1 ≠ k) fields ++ [(k, v)].

(** The own enumerable properties that an object spread [{ ...o }] copies. *)
Definition own_props (o : value) : list (string * value) :=
  match o with
  | VObj fields => fields
  | VArr items => imap (λ i v, (pretty i, v)) items
  | VStr s => imap (λ i c, (pretty i, VStr (String c EmptyString))) (String.list_ascii_of_string s)
  | _ => []
  end.

(** JavaScript truthiness, as used by [||] and [?:]. *)
Definition truthy (v : value) : bool :=
  match v with
  | VUndefined | VNull => false
  | VBool b => b
  | VNum n => negb (Z.eqb n 0)
  | VStr s => negb (String.eqb s "")
  | VDate _ | VArr _ | VObj _ => true
  end.

(** [a || b] *)
Definition js_or (a b : value) : value := if truthy a then a else b.

(** The name zod's [getParsedType] gives to a value. *)
Definition parsedType (v : value) : string :=
  match v with
  | VUndefined => "undefined"
  | VNull => "null"
  | VBool _ => "boolean"
  | VNum _ => "number"
  | VStr _ => "string"
  | VDate _ => "date"
  | VArr _ => "array"
  | VObj _ => "object"
  end.

(** ** [parseInt] *)

(** A JavaScript number that holds an integer, or [NaN].  The routes
    only use numbers as row ids. *)
Abbreviation number := (option Z) (only parsing).
Abbreviation NaN := (@None Z) (only parsing).

Definition is_space (c : Ascii.ascii) : bool :=
  let n := Ascii.nat_of_ascii c in
  bool_decide (n = 9 ∨ n = 10 ∨ n = 11 ∨ n = 12 ∨ n = 13 ∨ n = 32)%nat.

Fixpoint skip_space (s : string) : string :=
  match s with
  | String c rest => if is_space c then skip_space rest else s
  | EmptyString => s
  end.

Definition digit_value (radix : Z) (c : Ascii.ascii) : option Z :=
  let n := Z.of_nat (Ascii.nat_of_ascii c) in
  let d :=
    if bool_decide (48 ≤ n ≤ 57) then Some (n - 48)
    else if bool_decide (97 ≤ n ≤ 122) then Some (n - 87)
    else if bool_decide (65 ≤ n ≤ 90) then Some (n - 55)
    else None in
  d' ← d; if bool_decide (d' < radix) then Some d' else None.

(** The value of the longest prefix of digits, [None] when it is empty. *)
Fixpoint digits (radix : Z) (s : string) (acc : option Z) : option Z :=
  match s with
  | String c rest =>
      match digit_value radix c with
      | Some d => digits radix rest (Some (radix * default 0 acc + d))
      | None => acc
      end
  | EmptyString => acc
  end.

(** [parseInt(s)] with no radix argument: leading white space, a sign,
    an optional [0x] prefix, then the longest run of digits.  Two
    limits: only the ASCII white space is skipped (JavaScript also
    skips U+00A0, U+FEFF and the other Unicode spaces), and the result
    is the exact integer, where JavaScript rounds to a double from 2^53
    on.  Neither shows on a path segment that starts with the decimal
    digits of an id below 2^53. *)
Definition parseInt (s : string) : number :=
  let s := skip_space s in
  let '(sign, s) :=
    match s with
    | String "-"%char rest => (-1, rest)
    | String "+"%char rest => (1, rest)
    | _ => (1, s)
    end in
  let '(radix, s) :=
    match s with
    | String "0"%char (String "x"%char rest)
    | String "0"%char (String "X"%char rest) => (16, rest)
    | _ => (10, s)
    end in
  Z.mul sign <$> digits radix s None.


(** ** zod *)

Inductive ZodIssueCode :=
  | invalid_type
  | invalid_enum_value
  | invalid_string
  | invalid_date
  | too_small
  | too_big
  | custom.

(** An entry of [ZodError.errors]: of the fields zod reports, the code,
    the path of the offending property and the message. *)
Record ZodIssue := {
  code : ZodIssueCode;
  path : list string;
  message : string;
}.

(** What the embedding takes from outside [routes.ts] and [schema.ts]
    without fixing it:
    - [zod_email]: the pattern behind [z.string().email()];
    - [zod_integer]: the issues of the checks that drizzle-zod attaches
      to an [integer] column (none in the versions that map it to
      [z.number()], the int4 range in the later ones);
    - [js_Date]: the time value of [new Date(v)], [None] when there is
      none: the date is an [Invalid Date], or the constructor threw;
    - [js_Date_throws]: whether [new Date(v)] throws, as it does on an
      object that cannot be converted to a primitive (one whose
      [toString] is not callable, say);
    - [hashPassword]: how the store keeps a caregiver's password (the
      data model calls it hashed; the identity covers a store that
      does not hash). *)
Class Externals := {
  zod_email : string → bool;
  zod_integer : Z → list ZodIssue;
  js_Date : value → option Z;
  js_Date_throws : value → bool;
  hashPassword : string → string;
}.

(** zod's [SyncParseReturnType]: a valid value, a value with issues
    (a failed check), or no value at all (a wrong type); and, beside
    these, the case that the schema threw while it ran, which ends the
    parse with that error and no issue list. *)
Inductive ParseReturn (A : Type) :=
  | OK (a : A)
  | DIRTY (a : A) (issues : list ZodIssue)
  | INVALID (issues : list ZodIssue)
  | THROWN.
Arguments OK {A} a.
Arguments DIRTY {A} a issues.
Arguments INVALID {A} issues.
Arguments THROWN {A}.

Definition Schema (A : Type) : Type := value → ParseReturn A.

Definition issues_of {A} (r : ParseReturn A) : list ZodIssue :=
  match r with
  | OK _ | THROWN => []
  | DIRTY _ issues | INVALID issues => issues
  end.

Definition pr_map {A B} (f : A → B) (r : ParseReturn A) : ParseReturn B :=
  match r with
  | OK a => OK (f a)
  | DIRTY a issues => DIRTY (f a) issues
  | INVALID issues => INVALID issues
  | THROWN => THROWN
  end.

(** [ParseStatus.mergeObjectSync]: every key is parsed and its issues
    are kept; one aborted key aborts the object.  A key whose schema
    throws ends the parse of the object. *)
Definition pr_ap {A B} (f : ParseReturn (A → B)) (x : ParseReturn A) : ParseReturn B :=
  match f, x with
  | THROWN, _ | _, THROWN => THROWN
  | OK g, OK a => OK (g a)
  | OK g, DIRTY a issues => DIRTY (g a) issues
  | DIRTY g issues, OK a => DIRTY (g a) issues
  | DIRTY g issues, DIRTY a issues' => DIRTY (g a) (issues ++ issues')
  | _, _ => INVALID (issues_of f ++ issues_of x)
  end.

Global Instance ParseReturn_fmap : FMap ParseReturn := @pr_map.
Infix "<*>" := pr_ap (at level 61, left associativity).

Definition at_path {A} (k : string) (r : ParseReturn A) : ParseReturn A :=
  let under i := {| code := code i; path := k :: path i; message := message i |} in
  match r with
  | OK a => OK a
  | DIRTY a issues => DIRTY a (under <$> issues)
  | INVALID issues => INVALID (under <$> issues)
  | THROWN => THROWN
  end.

Definition invalid_type_issue (expected : string) (v : value) : ZodIssue :=
  {| code := invalid_type; path := [];
     message := match v with
                | VUndefined => "Required"
                | _ => "Expected " +:+ expected +:+ ", received " +:+ parsedType v
                end |}.

(** The medication frequency enum of the schema. *)
Inductive Frequency :=
  | daily | twice_daily | three_times_daily | four_times_daily
  | weekly | as_needed | other.

Definition frequency_to_string (f : Frequency) : string :=
  match f with
  | daily => "daily"
  | twice_daily => "twice_daily"
  | three_times_daily => "three_times_daily"
  | four_times_daily => "four_times_daily"
  | weekly => "weekly"
  | as_needed => "as_needed"
  | other => "other"
  end.

Definition frequencies : list Frequency :=
  [daily; twice_daily; three_times_daily; four_times_daily; weekly; as_needed; other].

Definition frequency_of_string (s : string) : option Frequency :=
  snd <$> list_find (λ f, frequency_to_string f = s) frequencies.

Section schemas.
Context `{!Externals}.

(** [z.string()] *)
Definition z_string : Schema string := λ v,
  match v with
  | VStr s => OK s
  | _ => INVALID [invalid_type_issue "string" v]
  end.

(** [z.string().min(n, msg)]; the length is counted in bytes, which
    is the JavaScript length of an ASCII string. *)
Definition z_string_min (n : nat) (msg : string) : Schema string := λ v,
  match v with
  | VStr s =>
      if bool_decide (n ≤ String.length s)%nat then OK s
      else DIRTY s [{| code := too_small; path := []; message := msg |}]
  | _ => INVALID [invalid_type_issue "string" v]
  end.

(** [z.string().email(msg)] *)
Definition z_string_email (msg : string) : Schema string := λ v,
  match v with
  | VStr s =>
      if zod_email s then OK s
      else DIRTY s [{| code := invalid_string; path := []; message := msg |}]
  | _ => INVALID [invalid_type_issue "string" v]
  end.

(** The schema of an [integer] column. *)
Definition z_integer : Schema Z := λ v,
  match v with
  | VNum n =>
      match zod_integer n with
      | [] => OK n
      | issues => DIRTY n issues
      end
  | _ => INVALID [invalid_type_issue "number" v]
  end.

(** [z.boolean()] *)
Definition z_boolean : Schema bool := λ v,
  match v with
  | VBool b => OK b
  | _ => INVALID [invalid_type_issue "boolean" v]
  end.

(** [z.date()], the schema of a [timestamp] column. *)
Definition z_date : Schema Z := λ v,
  match v with
  | VDate t => OK t
  | _ => INVALID [invalid_type_issue "date" v]
  end.

(** [z.coerce.date()]: the input goes through [new Date(input)]; when
    that throws, so does the schema. *)
Definition z_coerce_date : Schema Z := λ v,
  match js_Date v with
  | Some t => OK t
  | None =>
      if js_Date_throws v then THROWN
      else INVALID [{| code := invalid_date; path := []; message := "Invalid date" |}]
  end.

(** [z.enum([...])] over the frequency names. *)
Definition z_frequency : Schema Frequency := λ v,
  match v with
  | VStr s =>
      match frequency_of_string s with
      | Some f => OK f
      | None => INVALID [{| code := invalid_enum_value; path := [];
                            message := "Invalid enum value. Expected 'daily' | 'twice_daily' | 'three_times_daily' | 'four_times_daily' | 'weekly' | 'as_needed' | 'other', received '" +:+ s +:+ "'" |}]
      end
  | _ => INVALID [invalid_type_issue "'daily' | 'twice_daily' | 'three_times_daily' | 'four_times_daily' | 'weekly' | 'as_needed' | 'other'" v]
  end.

(** [.nullable()] and [.optional()] *)
Definition nullable {A} (s : Schema A) : Schema (option A) := λ v,
  match v with
  | VNull => OK None
  | _ => Some <$> s v
  end.

Definition optional {A} (s : Schema A) : Schema (option A) := λ v,
  match v with
  | VUndefined => OK None
  | _ => Some <$> s v
  end.

(** One key of a [z.object] shape, read off the input object. *)
Definition field {A} (k : string) (s : Schema A) (o : value) : ParseReturn A :=
  at_path k (s (prop k o)).

(** [z.object(shape)]: anything but an object is a wrong type;
    unknown keys are stripped, so only the keys of the shape are read. *)
Definition z_object {A} (shape : value → ParseReturn A) : Schema A := λ v,
  match v with
  | VObj _ => shape v
  | _ => INVALID [invalid_type_issue "object" v]
  end.

(** [schema.refine(check, { message, path })]: the check runs unless
    the inner schema aborted. *)
Definition refine {A} (check : A → bool) (msg : string) (p : list string)
    (s : Schema A) : Schema A := λ v,
  let issue := {| code := custom; path := p; message := msg |} in
  match s v with
  | OK a => if check a then OK a else DIRTY a [issue]
  | DIRTY a issues => if check a then DIRTY a issues else DIRTY a (issues ++ [issue])
  | INVALID issues => INVALID issues
  | THROWN => THROWN
  end.
End schemas.

(** ** The schemas of [shared/schema.ts] *)

(** [InsertMedication], the output of [medicationSchema] and of
    [medicationFormSchema].  An optional nullable column is [None] when
    absent, [Some None] when [null]. *)
Module InsertMedication.
Record t := {
  userId : Z;
  name : string;
  dosage : string;
  frequency : Frequency;
  startTime : Z;
  notes : option (option string);
  active : option (option bool);
}.
End InsertMedication.

(** The output of [medicationSchema.partial()]: every key optional. *)
Module PartialMedication.
Record t := {
  userId : option Z;
  name : option string;
  dosage : option string;
  frequency : option Frequency;
  startTime : option Z;
  notes : option (option string);
  active : option (option bool);
}.
End PartialMedication.

(** [InsertCaregiver], the output of [caregiverSchema]. *)
Module InsertCaregiver.
Record t := {
  username : string;
  password : string;
  fullName : string;
  phone : option (option string);
  email : string;
  relation : option (option string);
}.
End InsertCaregiver.

(** The output of [caregiverFormSchema]. *)
Module CaregiverForm.
Record t := {
  username : string;
  password : string;
  fullName : string;
  phone : option (option string);
  email : string;
  relation : option (option string);
  confirmPassword : string;
}.

(** [const { confirmPassword, ...caregiverData } = form] *)
Definition caregiverData (form : t) : InsertCaregiver.t :=
  {| InsertCaregiver.username := username form;
     InsertCaregiver.password := password form;
     InsertCaregiver.fullName := fullName form;
     InsertCaregiver.phone := phone form;
     InsertCaregiver.email := email form;
     InsertCaregiver.relation := relation form |}.
End CaregiverForm.

(** [InsertUserCaregiver], the output of [userCaregiverSchema]. *)
Module InsertUserCaregiver.
Record t := {
  userId : Z;
  caregiverId : Z;
  accessLevel : option string;
  active : option (option bool);
}.
End InsertUserCaregiver.

Section repo_schemas.
Context `{!Externals}.

(** [createInsertSchema(medications).omit({ id, createdAt })] *)
Definition medicationSchema : Schema InsertMedication.t :=
  z_object (λ o,
    InsertMedication.Build_t
      <$> field "userId" z_integer o
      <*> field "name" z_string o
      <*> field "dosage" z_string o
      <*> field "frequency" z_frequency o
      <*> field "startTime" z_date o
      <*> field "notes" (optional (nullable z_string)) o
      <*> field "active" (optional (nullable z_boolean)) o).

(** [medicationSchema.extend({ frequency: z.enum([...]), startTime: z.coerce.date() })] *)
Definition medicationFormSchema : Schema InsertMedication.t :=
  z_object (λ o,
    InsertMedication.Build_t
      <$> field "userId" z_integer o
      <*> field "name" z_string o
      <*> field "dosage" z_string o
      <*> field "frequency" z_frequency o
      <*> field "startTime" z_coerce_date o
      <*> field "notes" (optional (nullable z_string)) o
      <*> field "active" (optional (nullable z_boolean)) o).

(** [medicationSchema.partial()]; an optional key made optional again
    accepts the same inputs. *)
Definition medicationSchema_partial : Schema PartialMedication.t :=
  z_object (λ o,
    PartialMedication.Build_t
      <$> field "userId" (optional z_integer) o
      <*> field "name" (optional z_string) o
      <*> field "dosage" (optional z_string) o
      <*> field "frequency" (optional z_frequency) o
      <*> field "startTime" (optional z_date) o
      <*> field "notes" (optional (nullable z_string)) o
      <*> field "active" (optional (nullable z_boolean)) o).

(** [caregiverSchema.extend({ email, password, confirmPassword })
      .refine((data) => data.password === data.confirmPassword, ...)] *)
Definition caregiverFormSchema : Schema CaregiverForm.t :=
  refine
    (λ data, bool_decide (CaregiverForm.password data = CaregiverForm.confirmPassword data))
    "Passwords do not match" ["confirmPassword"]
    (z_object (λ o,
      CaregiverForm.Build_t
        <$> field "username" z_string o
        <*> field "password" (z_string_min 8 "Password must be at least 8 characters") o
        <*> field "fullName" z_string o
        <*> field "phone" (optional (nullable z_string)) o
        <*> field "email" (z_string_email "Please enter a valid email address") o
        <*> field "relation" (optional (nullable z_string)) o
        <*> field "confirmPassword" z_string o)).

(** [createInsertSchema(userCaregivers).omit({ id, createdAt })] *)
Definition userCaregiverSchema : Schema InsertUserCaregiver.t :=
  z_object (λ o,
    InsertUserCaregiver.Build_t
      <$> field "userId" z_integer o
      <*> field "caregiverId" z_integer o
      <*> field "accessLevel" (optional z_string) o
      <*> field "active" (optional (nullable z_boolean)) o).
End repo_schemas.

(** ** Rows *)

Definition json_opt {A} (f : A → value) (o : option A) : value :=
  from_option f VNull o.

(** [req.user]: a row of [users]; the routes read its [id] only. *)
Module User.
Record t := {
  id : Z;
  username : string;
}.
End User.

Module Medication.
Record t := {
  id : Z;
  userId : Z;
  name : string;
  dosage : string;
  frequency : Frequency;
  startTime : Z;
  notes : option string;
  active : option bool;
  createdAt : option Z;
}.

Definition to_json (m : t) : value :=
  VObj [("id", VNum (id m)); ("userId", VNum (userId m));
        ("name", VStr (name m)); ("dosage", VStr (dosage m));
        ("frequency", VStr (frequency_to_string (frequency m)));
        ("startTime", VDate (startTime m));
        ("notes", json_opt VStr (notes m));
        ("active", json_opt VBool (active m));
        ("createdAt", json_opt VDate (createdAt m))].
End Medication.

(** [taken] and [skipped] hold whatever value an update wrote: the
    route hands the body's properties over unvalidated. *)
Module MedicationReminder.
Record t := {
  id : Z;
  medicationId : Z;
  reminderTime : Z;
  taken : value;
  takenAt : option Z;
  skipped : value;
}.

Definition to_json (r : t) : value :=
  VObj [("id", VNum (id r)); ("medicationId", VNum (medicationId r));
        ("reminderTime", VDate (reminderTime r));
        ("taken", taken r);
        ("takenAt", json_opt VDate (takenAt r));
        ("skipped", skipped r)].
End MedicationReminder.

Module Caregiver.
Record t := {
  id : Z;
  username : string;
  password : string;
  fullName : string;
  phone : option string;
  email : string;
  relation : option string;
  createdAt : option Z;
}.

Definition to_json (c : t) : value :=
  VObj [("id", VNum (id c)); ("username", VStr (username c));
        ("password", VStr (password c)); ("fullName", VStr (fullName c));
        ("phone", json_opt VStr (phone c)); ("email", VStr (email c));
        ("relation", json_opt VStr (relation c));
        ("createdAt", json_opt VDate (createdAt c))].
End Caregiver.

(** [accessLevel] and [active] hold whatever value an update wrote, as
    for the reminders. *)
Module UserCaregiver.
Record t := {
  id : Z;
  userId : Z;
  caregiverId : Z;
  accessLevel : value;
  active : value;
  createdAt : option Z;
}.

Definition to_json (l : t) : value :=
  VObj [("id", VNum (id l)); ("userId", VNum (userId l));
        ("caregiverId", VNum (caregiverId l));
        ("accessLevel", accessLevel l); ("active", active l);
        ("createdAt", json_opt VDate (createdAt l))].
End UserCaregiver.

(** ** The store *)

(** The tables the routes reach, each keyed by its [serial] id, the
    next value of each sequence, and the clock behind [defaultNow()]. *)
Record Store := {
  medications : gmap Z Medication.t;
  medicationReminders : gmap Z MedicationReminder.t;
  caregivers : gmap Z Caregiver.t;
  userCaregivers : gmap Z UserCaregiver.t;
  medications_seq : Z;
  caregivers_seq : Z;
  userCaregivers_seq : Z;
  now : Z;
}.

Definition with_medications (f : gmap Z Medication.t → gmap Z Medication.t)
    (seq : Z) (st : Store) : Store :=
  {| medications := f (medications st);
     medicationReminders := medicationReminders st;
     caregivers := caregivers st;
     userCaregivers := userCaregivers st;
     medications_seq := seq;
     caregivers_seq := caregivers_seq st;
     userCaregivers_seq := userCaregivers_seq st;
     now := now st |}.

Definition with_medicationReminders
    (f : gmap Z MedicationReminder.t → gmap Z MedicationReminder.t) (st : Store) : Store :=
  {| medications := medications st;
     medicationReminders := f (medicationReminders st);
     caregivers := caregivers st;
     userCaregivers := userCaregivers st;
     medications_seq := medications_seq st;
     caregivers_seq := caregivers_seq st;
     userCaregivers_seq := userCaregivers_seq st;
     now := now st |}.

Definition with_caregivers (f : gmap Z Caregiver.t → gmap Z Caregiver.t)
    (seq : Z) (st : Store) : Store :=
  {| medications := medications st;
     medicationReminders := medicationReminders st;
     caregivers := f (caregivers st);
     userCaregivers := userCaregivers st;
     medications_seq := medications_seq st;
     caregivers_seq := seq;
     userCaregivers_seq := userCaregivers_seq st;
     now := now st |}.

Definition with_userCaregivers (f : gmap Z UserCaregiver.t → gmap Z UserCaregiver.t)
    (seq : Z) (st : Store) : Store :=
  {| medications := medications st;
     medicationReminders := medicationReminders st;
     caregivers := caregivers st;
     userCaregivers := f (userCaregivers st);
     medications_seq := medications_seq st;
     caregivers_seq := caregivers_seq st;
     userCaregivers_seq := seq;
     now := now st |}.

(** A column written by a partial update: [undefined] leaves it. *)
Definition set_column (new old : value) : value :=
  match new with
  | VUndefined => old
  | _ => new
  end.

(** ** The persistence gateway

    [server/storage.ts] is not among the sources; the operations the
    routes call are modelled on the tables above.  None of them fails:
    a persistence failure, which a route answers with 500, is outside
    the model. *)
Module Db.
Section db.
Context `{!Externals}.

(** Modelled from the spec: [storage.getMedications], missing from the
    sources; the medications a user owns. *)
Definition getMedications (userId : Z) (st : Store) : list Medication.t :=
  filter (λ m, Medication.userId m = userId) (map_to_list (medications st)).*2.

(** Modelled from the spec: [storage.getMedication], missing from the
    sources; the medication of that id, [undefined] when there is
    none (and for [NaN], which is no row's id). *)
Definition getMedication (id : number) (st : Store) : option Medication.t :=
  id ≫= λ id, medications st !! id.

(** Modelled from the spec: [storage.createMedication], missing from
    the sources; a validated insert, with the column defaults of the
    schema ([active] true, [createdAt] now) and the next serial id. *)
Definition createMedication (data : InsertMedication.t) (st : Store)
    : Medication.t * Store :=
  let m := {| Medication.id := medications_seq st;
              Medication.userId := InsertMedication.userId data;
              Medication.name := InsertMedication.name data;
              Medication.dosage := InsertMedication.dosage data;
              Medication.frequency := InsertMedication.frequency data;
              Medication.startTime := InsertMedication.startTime data;
              Medication.notes := default None (InsertMedication.notes data);
              Medication.active := default (Some true) (InsertMedication.active data);
              Medication.createdAt := Some (now st) |} in
  (m, with_medications <[Medication.id m := m]> (medications_seq st + 1) st).

(** Modelled from the spec: [storage.updateMedication], missing from
    the sources; a partial update, each key that is present replaces
    the column; [undefined] when there is no such medication. *)
Definition updateMedication (id : number) (data : PartialMedication.t) (st : Store)
    : option Medication.t * Store :=
  match id, getMedication id st with
  | Some id, Some m =>
      let m' := {| Medication.id := Medication.id m;
                   Medication.userId := default (Medication.userId m) (PartialMedication.userId data);
                   Medication.name := default (Medication.name m) (PartialMedication.name data);
                   Medication.dosage := default (Medication.dosage m) (PartialMedication.dosage data);
                   Medication.frequency := default (Medication.frequency m) (PartialMedication.frequency data);
                   Medication.startTime := default (Medication.startTime m) (PartialMedication.startTime data);
                   Medication.notes := default (Medication.notes m) (PartialMedication.notes data);
                   Medication.active := default (Medication.active m) (PartialMedication.active data);
                   Medication.createdAt := Medication.createdAt m |} in
      (Some m', with_medications <[id := m']> (medications_seq st) st)
  | _, _ => (None, st)
  end.

(** Modelled from the spec: [storage.getMedicationReminders], missing
    from the sources; the reminders of a medication. *)
Definition getMedicationReminders (medicationId : number) (st : Store)
    : list MedicationReminder.t :=
  filter (λ r, Some (MedicationReminder.medicationId r) = medicationId)
         (map_to_list (medicationReminders st)).*2.

(** Modelled from the spec: [storage.deleteMedication], missing from
    the sources; deletes the medication and nothing else (no cascade
    to its reminders), and tells whether it did.  The schema gives the
    foreign key [medication_reminders.medication_id] no [onDelete], so
    a medication that a reminder refers to is not deleted: the call
    fails, which the route answers like a thrown error. *)
Definition deleteMedication (id : number) (st : Store) : bool * Store :=
  match id, getMedication id st, getMedicationReminders id st with
  | Some id, Some _, [] => (true, with_medications (delete id) (medications_seq st) st)
  | _, _, _ => (false, st)
  end.

(** Modelled from the spec: [storage.updateMedicationReminder],
    missing from the sources; [updateReminder(id, taken, skipped)]
    gives the reminder or nothing.  It writes [taken] and [skipped],
    and [takenAt] is the time of a taking, [null] otherwise; it does
    not look at who owns the medication. *)
Definition updateMedicationReminder (id : number) (taken skipped : value) (st : Store)
    : option MedicationReminder.t * Store :=
  match id, id ≫= λ id, medicationReminders st !! id with
  | Some id, Some r =>
      let r' := {| MedicationReminder.id := MedicationReminder.id r;
                   MedicationReminder.medicationId := MedicationReminder.medicationId r;
                   MedicationReminder.reminderTime := MedicationReminder.reminderTime r;
                   MedicationReminder.taken := set_column taken (MedicationReminder.taken r);
                   MedicationReminder.takenAt := if truthy taken then Some (now st) else None;
                   MedicationReminder.skipped := set_column skipped (MedicationReminder.skipped r) |} in
      (Some r', with_medicationReminders <[id := r']> st)
  | _, _ => (None, st)
  end.

(** Modelled from the spec: [storage.getCaregivers], missing from the
    sources; the caregivers linked to a user. *)
Definition getCaregivers (userId : Z) (st : Store) : list Caregiver.t :=
  omap (λ l, if bool_decide (UserCaregiver.userId l = userId)
             then caregivers st !! UserCaregiver.caregiverId l else None)
       (map_to_list (userCaregivers st)).*2.

(** Modelled from the spec: [storage.getCaregiverByUsername], missing
    from the sources; a caregiver of that username, if any. *)
Definition getCaregiverByUsername (username : string) (st : Store)
    : option Caregiver.t :=
  snd <$> list_find (λ c, Caregiver.username c = username)
                    (map_to_list (caregivers st)).*2.

(** Modelled from the spec: [storage.createCaregiver], missing from
    the sources; a validated insert with the next serial id, the
    password kept as the store keeps passwords. *)
Definition createCaregiver (data : InsertCaregiver.t) (st : Store)
    : Caregiver.t * Store :=
  let c := {| Caregiver.id := caregivers_seq st;
              Caregiver.username := InsertCaregiver.username data;
              Caregiver.password := hashPassword (InsertCaregiver.password data);
              Caregiver.fullName := InsertCaregiver.fullName data;
              Caregiver.phone := default None (InsertCaregiver.phone data);
              Caregiver.email := InsertCaregiver.email data;
              Caregiver.relation := default None (InsertCaregiver.relation data);
              Caregiver.createdAt := Some (now st) |} in
  (c, with_caregivers <[Caregiver.id c := c]> (caregivers_seq st + 1) st).

(** Modelled from the spec: [storage.linkCaregiverToUser], missing
    from the sources; inserts the join record, with the column
    defaults of the schema ([accessLevel] full, [active] true). *)
Definition linkCaregiverToUser (data : InsertUserCaregiver.t) (st : Store)
    : UserCaregiver.t * Store :=
  let l := {| UserCaregiver.id := userCaregivers_seq st;
              UserCaregiver.userId := InsertUserCaregiver.userId data;
              UserCaregiver.caregiverId := InsertUserCaregiver.caregiverId data;
              UserCaregiver.accessLevel := VStr (default "full" (InsertUserCaregiver.accessLevel data));
              UserCaregiver.active := json_opt VBool (default (Some true) (InsertUserCaregiver.active data));
              UserCaregiver.createdAt := Some (now st) |} in
  (l, with_userCaregivers <[UserCaregiver.id l := l]> (userCaregivers_seq st + 1) st).

(** Modelled from the spec: [storage.updateCaregiverAccess], missing
    from the sources; a partial update of the join record of that id,
    [undefined] when there is none.  It does not look at whose link
    it is. *)
Definition updateCaregiverAccess (id : number) (accessLevel active : value) (st : Store)
    : option UserCaregiver.t * Store :=
  match id, id ≫= λ id, userCaregivers st !! id with
  | Some id, Some l =>
      let l' := {| UserCaregiver.id := UserCaregiver.id l;
                   UserCaregiver.userId := UserCaregiver.userId l;
                   UserCaregiver.caregiverId := UserCaregiver.caregiverId l;
                   UserCaregiver.accessLevel := set_column accessLevel (UserCaregiver.accessLevel l);
                   UserCaregiver.active := set_column active (UserCaregiver.active l);
                   UserCaregiver.createdAt := UserCaregiver.createdAt l |} in
      (Some l', with_userCaregivers <[id := l']> (userCaregivers_seq st) st)
  | _, _ => (None, st)
  end.
End db.
End Db.

(** ** Handlers as computations over the store *)

(** What a handler can throw: a [ZodError] with its issues, or anything
    else (a [TypeError], say). *)
Inductive Exn :=
  | ZodError (errors : list ZodIssue)
  | Error.

Inductive Result (A : Type) :=
  | Return (a : A)
  | Throw (e : Exn).
Arguments Return {A} a.
Arguments Throw {A} e.

(** The calls a handler makes on [storage], in the order it makes them. *)
Inductive Call :=
  | GetMedications (userId : Z)
  | GetMedication (id : number)
  | CreateMedication (data : InsertMedication.t)
  | UpdateMedication (id : number) (data : PartialMedication.t)
  | DeleteMedication (id : number)
  | GetMedicationReminders (medicationId : number)
  | UpdateMedicationReminder (id : number) (taken skipped : value)
  | GetCaregivers (userId : Z)
  | GetCaregiverByUsername (username : string)
  | CreateCaregiver (data : InsertCaregiver.t)
  | LinkCaregiverToUser (data : InsertUserCaregiver.t)
  | UpdateCaregiverAccess (id : number) (accessLevel active : value).

(** The calls that write to the store. *)
Definition is_write (c : Call) : bool :=
  match c with
  | CreateMedication _ | UpdateMedication _ _ | DeleteMedication _
  | UpdateMedicationReminder _ _ _
  | CreateCaregiver _ | LinkCaregiverToUser _ | UpdateCaregiverAccess _ _ _ => true
  | _ => false
  end.

(** The store and the calls made on it so far. *)
Record World := {
  store : Store;
  calls : list Call;
}.

(** A computation that reads and writes the store and may throw; what
    it wrote before throwing stays written (there is no transaction). *)
Definition M (A : Type) : Type := World → Result A * World.

Global Instance M_ret : MRet M := λ A a w, (Return a, w).
Global Instance M_bind : MBind M := λ A B f m w,
  match m w with
  | (Return a, w') => f a w'
  | (Throw e, w') => (Throw e, w')
  end.

Definition throw {A} (e : Exn) : M A := λ w, (Throw e, w).

(** A call on [storage]: it is recorded, then runs on the store. *)
Definition call {A} (c : Call) (op : Store → A * Store) : M A := λ w,
  let '(a, st) := op (store w) in
  (Return a, {| store := st; calls := calls w ++ [c] |}).

Definition query {A} (c : Call) (op : Store → A) : M A :=
  call c (λ st, (op st, st)).

(** [schema.parse(v)]: the value when there is no issue, else a
    [ZodError] with all of them; what the schema threw itself goes
    through as it is. *)
Definition parse {A} (s : Schema A) (v : value) : M A :=
  match s v with
  | OK a => mret a
  | THROWN => throw Error
  | r => throw (ZodError (issues_of r))
  end.

(** [o.k], a [TypeError] on [null] and [undefined]. *)
Definition member (k : string) (o : value) : M value :=
  match o with
  | VUndefined | VNull => throw Error
  | _ => mret (prop k o)
  end.

(** The [storage] object of the routes. *)
Module storage.
Section storage.
Context `{!Externals}.

Definition getMedications (userId : Z) : M (list Medication.t) :=
  query (GetMedications userId) (Db.getMedications userId).
Definition getMedication (id : number) : M (option Medication.t) :=
  query (GetMedication id) (Db.getMedication id).
Definition createMedication (data : InsertMedication.t) : M Medication.t :=
  call (CreateMedication data) (Db.createMedication data).
Definition updateMedication (id : number) (data : PartialMedication.t)
    : M (option Medication.t) :=
  call (UpdateMedication id data) (Db.updateMedication id data).
Definition deleteMedication (id : number) : M bool :=
  call (DeleteMedication id) (Db.deleteMedication id).
Definition getMedicationReminders (medicationId : number)
    : M (list MedicationReminder.t) :=
  query (GetMedicationReminders medicationId) (Db.getMedicationReminders medicationId).
Definition updateMedicationReminder (id : number) (taken skipped : value)
    : M (option MedicationReminder.t) :=
  call (UpdateMedicationReminder id taken skipped)
       (Db.updateMedicationReminder id taken skipped).
Definition getCaregivers (userId : Z) : M (list Caregiver.t) :=
  query (GetCaregivers userId) (Db.getCaregivers userId).
Definition getCaregiverByUsername (username : string) : M (option Caregiver.t) :=
  query (GetCaregiverByUsername username) (Db.getCaregiverByUsername username).
Definition createCaregiver (data : InsertCaregiver.t) : M Caregiver.t :=
  call (CreateCaregiver data) (Db.createCaregiver data).
Definition linkCaregiverToUser (data : InsertUserCaregiver.t) : M UserCaregiver.t :=
  call (LinkCaregiverToUser data) (Db.linkCaregiverToUser data).
Definition updateCaregiverAccess (id : number) (accessLevel active : value)
    : M (option UserCaregiver.t) :=
  call (UpdateCaregiverAccess id accessLevel active)
       (Db.updateCaregiverAccess id accessLevel active).
End storage.
End storage.

(** ** Requests and responses *)

(** What a handler reads of the request: the session's user
    ([req.isAuthenticated()] holds exactly when there is one), the
    [:id] segment of the path, and the parsed body. *)
Record Request := {
  user : option User.t;
  params_id : string;
  body : value;
}.

(** The status sent and the JSON body, [None] for [send()]. *)
Record Response := {
  status : Z;
  payload : option value;
}.

Definition Handler : Type := Request → World → Response * World.

(** [res.status(s).json(v)], [res.json(v)] and [res.status(s).send()] *)
Definition status_json (s : Z) (v : value) : Response :=
  {| status := s; payload := Some v |}.
Definition json (v : value) : Response := status_json 200 v.
Definition status_send (s : Z) : Response :=
  {| status := s; payload := None |}.

Definition code_name (c : ZodIssueCode) : string :=
  match c with
  | invalid_type => "invalid_type"
  | invalid_enum_value => "invalid_enum_value"
  | invalid_string => "invalid_string"
  | invalid_date => "invalid_date"
  | too_small => "too_small"
  | too_big => "too_big"
  | custom => "custom"
  end.

Definition issue_to_json (i : ZodIssue) : value :=
  VObj [("code", VStr (code_name (code i)));
        ("path", VArr (VStr <$> path i));
        ("message", VStr (message i))].

(** [{ error: "..." }] and [{ error: error.errors }] *)
Definition error (msg : string) : value := VObj [("error", VStr msg)].
Definition errors (issues : list ZodIssue) : value :=
  VObj [("error", VArr (issue_to_json <$> issues))].

(** [try { body } catch (error) { handler }] around a handler's body. *)
Definition try_catch (body : M Response) (handler : Exn → Response)
    : World → Response * World := λ w,
  match body w with
  | (Return r, w') => (r, w')
  | (Throw e, w') => (handler e, w')
  end.

(** The middleware of every protected route. *)
Definition ensureAuthenticated (req : Request)
    (next : User.t → World → Response * World) : World → Response * World :=
  match user req with
  | Some u => next u
  | None => λ w, (status_json 401 (error "Unauthorized"), w)
  end.

(** ** The routes of [registerRoutes] *)

Section routes.
Context `{!Externals}.

(** [GET /api/health] *)
Definition get_health : Handler := λ _ w,
  (status_json 200 (VObj [("status", VStr "healthy")]), w).

(** [GET /api/medications] *)
Definition get_medications : Handler := λ req,
  ensureAuthenticated req (λ user,
    try_catch
      (medications ← storage.getMedications (User.id user);
       mret (json (VArr (Medication.to_json <$> medications))))
      (λ _, status_json 500 (error "Failed to fetch medications"))).

(** [GET /api/medications/:id] *)
Definition get_medication : Handler := λ req,
  ensureAuthenticated req (λ user,
    try_catch
      (medication ← storage.getMedication (parseInt (params_id req));
       match medication with
       | None => mret (status_json 404 (error "Medication not found"))
       | Some medication =>
           if bool_decide (Medication.userId medication ≠ User.id user)
           then mret (status_json 403 (error "Unauthorized access to medication"))
           else mret (json (Medication.to_json medication))
       end)
      (λ _, status_json 500 (error "Failed to fetch medication"))).

(** [POST /api/medications] *)
Definition post_medications : Handler := λ req,
  ensureAuthenticated req (λ user,
    try_catch
      (validatedData ← parse medicationFormSchema
         (VObj (set_prop "userId" (VNum (User.id user)) (own_props (body req))));
       medication ← storage.createMedication validatedData;
       mret (status_json 201 (Medication.to_json medication)))
      (λ e, match e with
            | ZodError errs => status_json 400 (errors errs)
            | _ => status_json 500 (error "Failed to create medication")
            end)).

(** [PUT /api/medications/:id] *)
Definition put_medication : Handler := λ req,
  ensureAuthenticated req (λ user,
    try_catch
      (let id := parseInt (params_id req) in
       medication ← storage.getMedication id;
       match medication with
       | None => mret (status_json 404 (error "Medication not found"))
       | Some medication =>
           if bool_decide (Medication.userId medication ≠ User.id user)
           then mret (status_json 403 (error "Unauthorized access to medication"))
           else
             validatedData ← parse medicationSchema_partial (body req);
             updatedMedication ← storage.updateMedication id validatedData;
             mret (json (from_option Medication.to_json VUndefined updatedMedication))
       end)
      (λ e, match e with
            | ZodError errs => status_json 400 (errors errs)
            | _ => status_json 500 (error "Failed to update medication")
            end)).

(** [DELETE /api/medications/:id] *)
Definition delete_medication : Handler := λ req,
  ensureAuthenticated req (λ user,
    try_catch
      (let id := parseInt (params_id req) in
       medication ← storage.getMedication id;
       match medication with
       | None => mret (status_json 404 (error "Medication not found"))
       | Some medication =>
           if bool_decide (Medication.userId medication ≠ User.id user)
           then mret (status_json 403 (error "Unauthorized access to medication"))
           else
             success ← storage.deleteMedication id;
             if success : bool then mret (status_send 204)
             else mret (status_json 500 (error "Failed to delete medication"))
       end)
      (λ _, status_json 500 (error "Failed to delete medication"))).

(** [GET /api/medications/:id/reminders] *)
Definition get_medication_reminders : Handler := λ req,
  ensureAuthenticated req (λ user,
    try_catch
      (let id := parseInt (params_id req) in
       medication ← storage.getMedication id;
       match medication with
       | None => mret (status_json 404 (error "Medication not found"))
       | Some medication =>
           if bool_decide (Medication.userId medication ≠ User.id user)
           then mret (status_json 403 (error "Unauthorized access to medication"))
           else
             reminders ← storage.getMedicationReminders id;
             mret (json (VArr (MedicationReminder.to_json <$> reminders)))
       end)
      (λ _, status_json 500 (error "Failed to fetch reminders"))).

(** [PUT /api/reminders/:id] *)
Definition put_reminder : Handler := λ req,
  ensureAuthenticated req (λ user,
    try_catch
      (let id := parseInt (params_id req) in
       taken ← member "taken" (body req);
       skipped ← member "skipped" (body req);
       updatedReminder ← storage.updateMedicationReminder id taken skipped;
       match updatedReminder with
       | None => mret (status_json 404 (error "Reminder not found"))
       | Some updatedReminder =>
           medication ← storage.getMedication
             (Some (MedicationReminder.medicationId updatedReminder));
           match medication with
           | Some medication =>
               if bool_decide (Medication.userId medication ≠ User.id user)
               then mret (status_json 403 (error "Unauthorized access to reminder"))
               else mret (json (MedicationReminder.to_json updatedReminder))
           | None => mret (status_json 403 (error "Unauthorized access to reminder"))
           end
       end)
      (λ _, status_json 500 (error "Failed to update reminder"))).

(** [GET /api/caregivers] *)
Definition get_caregivers : Handler := λ req,
  ensureAuthenticated req (λ user,
    try_catch
      (caregivers ← storage.getCaregivers (User.id user);
       mret (json (VArr (Caregiver.to_json <$> caregivers))))
      (λ _, status_json 500 (error "Failed to fetch caregivers"))).

(** [POST /api/caregivers] *)
Definition post_caregivers : Handler := λ req,
  ensureAuthenticated req (λ user,
    try_catch
      (form ← parse caregiverFormSchema (body req);
       let caregiverData := CaregiverForm.caregiverData form in
       existingCaregiver ← storage.getCaregiverByUsername
         (InsertCaregiver.username caregiverData);
       match existingCaregiver with
       | Some _ => mret (status_json 400 (error "Username already exists"))
       | None =>
           caregiver ← storage.createCaregiver caregiverData;
           accessLevel ← member "accessLevel" (body req);
           userCaregiverData ← parse userCaregiverSchema
             (VObj [("userId", VNum (User.id user));
                    ("caregiverId", VNum (Caregiver.id caregiver));
                    ("accessLevel", js_or accessLevel (VStr "full"));
                    ("active", VBool true)]);
           userCaregiver ← storage.linkCaregiverToUser userCaregiverData;
           mret (status_json 201
                   (VObj (set_prop "accessLevel" (UserCaregiver.accessLevel userCaregiver)
                                   (own_props (Caregiver.to_json caregiver)))))
       end)
      (λ e, match e with
            | ZodError errs => status_json 400 (errors errs)
            | _ => status_json 500 (error "Failed to create caregiver")
            end)).

(** [PUT /api/caregivers/:id/access] *)
Definition put_caregiver_access : Handler := λ req,
  ensureAuthenticated req (λ user,
    try_catch
      (let id := parseInt (params_id req) in
       accessLevel ← member "accessLevel" (body req);
       active ← member "active" (body req);
       updatedUserCaregiver ← storage.updateCaregiverAccess id accessLevel active;
       match updatedUserCaregiver with
       | None => mret (status_json 404 (error "Caregiver link not found"))
       | Some updatedUserCaregiver =>
           if bool_decide (UserCaregiver.userId updatedUserCaregiver ≠ User.id user)
           then mret (status_json 403 (error "Unauthorized access to caregiver"))
           else mret (json (UserCaregiver.to_json updatedUserCaregiver))
       end)
      (λ _, status_json 500 (error "Failed to update caregiver access"))).

(** The four routes on a stored medication. *)
Definition medication_routes : list Handler :=
  [get_medication; put_medication; delete_medication; get_medication_reminders].
End routes.

(** ** Properties of a handler *)

(** [null] or [undefined]: the values with no properties to read. *)
Definition nullish (v : value) : bool :=
  match v with
  | VUndefined | VNull => true
  | _ => false
  end.

(** The calls a handler made, given the worlds before and after it. *)
Definition new_calls (w w' : World) : list Call :=
  drop (length (calls w)) (calls w').

(** The statuses with which a route turns a request down before it
    gets to act on it. *)
Definition rejection (s : Z) : bool :=
  bool_decide (s = 401 ∨ s = 404 ∨ s = 403 ∨ s = 400).

(** A handler checks before it writes: a request that it turns down
    (401, 404, 403, 400) has made no writing call and left the store as
    it was. *)
Definition checks_before_writes (h : Handler) : Prop :=
  ∀ req w,
    rejection (status (h req w).1) = true →
    Forall (λ c, is_write c = false) (new_calls w (h req w).2) ∧
    store (h req w).2 = store w.

(** The schema did not throw, and a result that is not [OK] carries at
    least one issue. *)
Definition reported {A} (r : ParseReturn A) : Prop :=
  match r with
  | OK _ => True
  | DIRTY _ issues | INVALID issues => issues ≠ []
  | THROWN => False
  end.

(** The access level the join record of a new caregiver should carry:
    the one of the request when it gives one, else full. *)
Definition requested_accessLevel (req : Request) : value :=
  match prop "accessLevel" (body req) with
  | VUndefined => VStr "full"
  | v => v
  end.

(** [req.body.accessLevel || "full"] *)
Definition defaulted_accessLevel (req : Request) : value :=
  js_or (prop "accessLevel" (body req)) (VStr "full").

(** A caregiver creation that succeeded has linked the new caregiver to
    the requesting user, active, at the given access level, and answers
    with the caregiver and that level. *)
Definition links_at_level `{!Externals} (level : Request → value)
    (req : Request) (w : World) : Prop :=
  status (post_caregivers req w).1 = 201 →
  ∃ u c l,
    user req = Some u ∧
    caregivers (store (post_caregivers req w).2) !! caregivers_seq (store w) = Some c ∧
    userCaregivers (store (post_caregivers req w).2) !! userCaregivers_seq (store w) = Some l ∧
    UserCaregiver.userId l = User.id u ∧
    UserCaregiver.caregiverId l = Caregiver.id c ∧
    UserCaregiver.active l = VBool true ∧
    UserCaregiver.accessLevel l = level req ∧
    payload (post_caregivers req w).1 =
      Some (VObj (set_prop "accessLevel" (level req)
                           (own_props (Caregiver.to_json c)))).

(** ** A worked instance *)

(** One choice of the outside functions, for the examples: an address
    needs an [@] that is not its first character, integer columns take
    any number, [new Date] understands numbers, dates, booleans and
    [null] and throws on an object with a [toString] of its own (which
    in a JSON body is never callable), and the store marks what it
    hashed. *)
Definition example_email (s : string) : bool :=
  match String.index 0 "@" s with
  | Some (S _) => true
  | _ => false
  end.

Definition example_Date (v : value) : option Z :=
  match v with
  | VNum n => Some n
  | VDate t => Some t
  | VBool b => Some (if b then 1 else 0)
  | VNull => Some 0
  | _ => None
  end.

Definition example_Date_throws (v : value) : bool :=
  match v with
  | VObj fields => bool_decide (is_Some (assoc "toString" fields))
  | _ => false
  end.

Definition example_externals : Externals := {|
  zod_email := example_email;
  zod_integer := λ _, [];
  js_Date := example_Date;
  js_Date_throws := example_Date_throws;
  hashPassword := λ s, "hash(" +:+ s +:+ ")";
|}.

Definition alice : User.t := {| User.id := 1; User.username := "alice" |}.
Definition bob : User.t := {| User.id := 2; User.username := "bob" |}.

Definition aspirin : Medication.t := {|
  Medication.id := 1; Medication.userId := 1;
  Medication.name := "Aspirin"; Medication.dosage := "100mg";
  Medication.frequency := daily; Medication.startTime := 1700000000000;
  Medication.notes := None; Medication.active := Some true;
  Medication.createdAt := Some 1700000000000 |}.

Definition insulin : Medication.t := {|
  Medication.id := 2; Medication.userId := 2;
  Medication.name := "Insulin"; Medication.dosage := "10u";
  Medication.frequency := twice_daily; Medication.startTime := 1700000000000;
  Medication.notes := Some "before meals"; Medication.active := Some true;
  Medication.createdAt := Some 1700000000000 |}.

Definition aspirin_reminder : MedicationReminder.t := {|
  MedicationReminder.id := 1; MedicationReminder.medicationId := 1;
  MedicationReminder.reminderTime := 1700000100000;
  MedicationReminder.taken := VBool false; MedicationReminder.takenAt := None;
  MedicationReminder.skipped := VBool false |}.

Definition insulin_reminder : MedicationReminder.t := {|
  MedicationReminder.id := 2; MedicationReminder.medicationId := 2;
  MedicationReminder.reminderTime := 1700000200000;
  MedicationReminder.taken := VBool false; MedicationReminder.takenAt := None;
  MedicationReminder.skipped := VBool false |}.

Definition carol : Caregiver.t := {|
  Caregiver.id := 1; Caregiver.username := "carol";
  Caregiver.password := "hash(carolpass1)"; Caregiver.fullName := "Carol Jones";
  Caregiver.phone := None; Caregiver.email := "carol@example.com";
  Caregiver.relation := Some "sister"; Caregiver.createdAt := Some 1700000000000 |}.

Definition alice_carol : UserCaregiver.t := {|
  UserCaregiver.id := 1; UserCaregiver.userId := 1; UserCaregiver.caregiverId := 1;
  UserCaregiver.accessLevel := VStr "full"; UserCaregiver.active := VBool true;
  UserCaregiver.createdAt := Some 1700000000000 |}.

(** Alice owns the aspirin and its reminder and has Carol as caregiver;
    Bob owns the insulin and its reminder. *)
Definition example_store : Store := {|
  medications := {[ 1 := aspirin; 2 := insulin ]};
  medicationReminders := {[ 1 := aspirin_reminder; 2 := insulin_reminder ]};
  caregivers := {[ 1 := carol ]};
  userCaregivers := {[ 1 := alice_carol ]};
  medications_seq := 3;
  caregivers_seq := 2;
  userCaregivers_seq := 2;
  now := 1700000300000;
|}.

Definition example_world : World := {| store := example_store; calls := [] |}.

(** The same store without the reminder of Alice's aspirin. *)
Definition store_without_aspirin_reminder : Store :=
  with_medicationReminders (λ _, {[ 2 := insulin_reminder ]}) example_store.

(** A caregiver form that passes [caregiverFormSchema]. *)
Definition dave_form : list (string * value) :=
  [("username", VStr "dave"); ("password", VStr "davepass1");
   ("confirmPassword", VStr "davepass1"); ("fullName", VStr "Dave Smith");
   ("email", VStr "dave@example.com")].

(** Unfolds the monad and the [storage] calls of a handler's body. *)
(** ** Further definitions *)

(** [createInsertSchema(caregivers).omit({ id, createdAt })] *)
Definition caregiverSchema : Schema InsertCaregiver.t :=
  z_object (λ o,
    InsertCaregiver.Build_t
      <$> field "username" z_string o
      <*> field "password" z_string o
      <*> field "fullName" z_string o
      <*> field "phone" (optional (nullable z_string)) o
      <*> field "email" z_string o
      <*> field "relation" (optional (nullable z_string)) o).

(** Every route registered behind [ensureAuthenticated]. *)
Definition protected_routes `{!Externals} : list Handler :=
  [get_medications; get_medication; post_medications; put_medication;
   delete_medication; get_medication_reminders; put_reminder;
   get_caregivers; post_caregivers; put_caregiver_access].

(** The input that an optional nullable key was read from: absent,
    [null], or the value. *)
Definition optional_nullable {A} (f : A → value) (o : option (option A)) : value :=
  match o with
  | None => VUndefined
  | Some None => VNull
  | Some (Some a) => f a
  end.

(** [{ ...o }] *)
Definition spread (o : value) : value := VObj (own_props o).

(** The keys of a medication form that come from the body. *)
Definition medication_form_keys : list string :=
  ["name"; "dosage"; "frequency"; "startTime"; "notes"; "active"].

(** Bob's request to create a medication, in a body that gives Alice's
    name where the owner's id belongs. *)
Definition add_ibuprofen_as_alice : Request :=
  {| user := Some bob; params_id := "";
     body := VObj [("userId", VStr "alice"); ("name", VStr "Ibuprofen");
                   ("dosage", VStr "200mg"); ("frequency", VStr "daily");
                   ("startTime", VNum 1700000000000)] |}.

(** A form whose [startTime] cannot be made a primitive. *)
Definition add_ibuprofen_bad_date : Request :=
  {| user := Some bob; params_id := "";
     body := VObj [("name", VStr "Ibuprofen");
                   ("dosage", VStr "200mg"); ("frequency", VStr "daily");
                   ("startTime", VObj [("toString", VNum 5)])] |}.

(** Bob's request to create a medication; the body names Alice as owner. *)
Definition add_ibuprofen : Request :=
  {| user := Some bob; params_id := "";
     body := VObj [("userId", VNum 1); ("name", VStr "Ibuprofen");
                   ("dosage", VStr "200mg"); ("frequency", VStr "daily");
                   ("startTime", VNum 1700000000000)] |}.

(** The same form with other keys it should not matter. *)
Definition add_ibuprofen' : Request :=
  {| user := Some bob; params_id := "7";
     body := VObj [("id", VNum 99); ("name", VStr "Ibuprofen");
                   ("dosage", VStr "200mg"); ("frequency", VStr "daily");
                   ("startTime", VNum 1700000000000); ("createdAt", VNull)] |}.

(** Alice's form for Dave, with a number as access level. *)
Definition add_dave_level_5 : Request :=
  {| user := Some alice; params_id := "";
     body := VObj (("accessLevel", VNum 5) :: dave_form) |}.

(** Alice makes Dave her caregiver. *)
Definition add_dave : Request :=
  {| user := Some alice; params_id := ""; body := VObj dave_form |}.

Ltac run :=
  unfold storage.getMedications, storage.getMedication, storage.createMedication,
    storage.updateMedication, storage.deleteMedication,
    storage.getMedicationReminders, storage.updateMedicationReminder,
    storage.getCaregivers, storage.getCaregiverByUsername,
    storage.createCaregiver, storage.linkCaregiverToUser,
    storage.updateCaregiverAccess,
    parse, member, query, call, throw, mbind, M_bind, mret, M_ret in *;
  cbn [fst snd store calls status payload status_json json status_send] in *.

Tactic Notation "enter" reference(h) :=
  unfold h, ensureAuthenticated, try_catch.

(** * Properties *)

(** ** Objects *)

Lemma assoc_app k fs gs :
  assoc k (fs ++ gs) = match assoc k fs with Some v => Some v | None => assoc k gs end.
Proof.
  induction fs as [|[k' v] fs IH]; simpl; [done|].
  destruct (String.eqb k k'); [done | apply IH].
Qed.

Lemma assoc_filter_eq k fs : assoc k (filter (λ kv, kv.1 ≠ k) fs) = None.
Proof.
  induction fs as [|[k' v] fs IH]; [done|].
  rewrite filter_cons. case_decide as Hk; simpl in *; [|apply IH].
  destruct (String.eqb_spec k k'); [congruence | apply IH].
Qed.

Lemma assoc_filter_ne k k' fs :
  k ≠ k' → assoc k' (filter (λ kv, kv.1 ≠ k) fs) = assoc k' fs.
Proof.
  intros Hne. induction fs as [|[k'' v] fs IH]; [done|].
  rewrite filter_cons. case_decide as Hk; simpl in *.
  - destruct (String.eqb k' k''); [done | apply IH].
  - destruct (String.eqb_spec k' k''); [|apply IH].
    congruence.
Qed.

(** A spread followed by a key reads that key's new value... *)
Lemma prop_set_prop k v fs : prop k (VObj (set_prop k v fs)) = v.
Proof.
  unfold prop, set_prop. rewrite assoc_app, assoc_filter_eq. simpl.
  by rewrite String.eqb_refl.
Qed.

(** ... and every other key as before. *)
Lemma prop_set_prop_ne k k' v fs :
  k ≠ k' → prop k' (VObj (set_prop k v fs)) = prop k' (VObj fs).
Proof.
  intros Hne. unfold prop, set_prop. rewrite assoc_app, assoc_filter_ne by done.
  destruct (assoc k' fs); [done|]. simpl.
  destruct (String.eqb_spec k' k); [congruence | done].
Qed.

(** ** Parse results *)

Lemma pr_map_OK {A B} (f : A → B) r b :
  f <$> r = OK b → ∃ a, r = OK a ∧ b = f a.
Proof. destruct r; intros [= <-]; eauto. Qed.

Lemma pr_ap_OK {A B} (f : ParseReturn (A → B)) x b :
  f <*> x = OK b → ∃ g a, f = OK g ∧ x = OK a ∧ b = g a.
Proof. destruct f, x; intros [= <-]; eauto. Qed.

Lemma at_path_OK {A} k (r : ParseReturn A) a : at_path k r = OK a → r = OK a.
Proof. destruct r; intros [= <-]; done. Qed.

Lemma pr_ap_thrown_l {A B} (x : ParseReturn A) : @THROWN (A → B) <*> x = THROWN.
Proof. done. Qed.

Lemma pr_ap_thrown_r {A B} (f : ParseReturn (A → B)) : f <*> THROWN = THROWN.
Proof. by destruct f. Qed.

Lemma pr_map_reported {A B} (f : A → B) r : reported r → reported (f <$> r).
Proof. by destruct r. Qed.

Lemma pr_ap_reported {A B} (f : ParseReturn (A → B)) x :
  reported f → reported x → reported (f <*> x).
Proof.
  destruct f, x; simpl; intros Hf Hx; try done;
    by intros [? ?]%app_eq_nil.
Qed.

Lemma at_path_reported {A} k (r : ParseReturn A) : reported r → reported (at_path k r).
Proof. destruct r; simpl; [done| | |done]; by intros ? ?%fmap_nil_inv. Qed.

(** ** What a schema accepts *)

Section schema_facts.
Context `{!Externals}.

Lemma z_string_OK v s : z_string v = OK s → v = VStr s.
Proof. destruct v; intros [= <-]; done. Qed.

Lemma z_string_min_OK n msg v s :
  z_string_min n msg v = OK s → v = VStr s ∧ (n ≤ String.length s)%nat.
Proof.
  destruct v; try done. simpl. case_bool_decide; intros [= <-]; done.
Qed.

Lemma z_string_email_OK msg v s :
  z_string_email msg v = OK s → v = VStr s ∧ zod_email s = true.
Proof.
  destruct v; try done. simpl. destruct (zod_email _) eqn:E; intros [= <-]; done.
Qed.

Lemma z_integer_OK v n : z_integer v = OK n → v = VNum n ∧ zod_integer n = [].
Proof.
  destruct v; try done. simpl. destruct (zod_integer _) eqn:E; intros [= <-]; done.
Qed.

Lemma z_boolean_OK v b : z_boolean v = OK b → v = VBool b.
Proof. destruct v; intros [= <-]; done. Qed.

Lemma optional_OK {A} (s : Schema A) v o :
  optional s v = OK o →
  (v = VUndefined ∧ o = None) ∨ (v ≠ VUndefined ∧ ∃ a, s v = OK a ∧ o = Some a).
Proof.
  destruct v; simpl; [intros [= <-]; by left|..];
    intros (a & ? & ->)%pr_map_OK; right; split; [done|eauto..].
Qed.

Lemma field_OK {A} k (s : Schema A) o a : field k s o = OK a → s (prop k o) = OK a.
Proof. apply at_path_OK. Qed.

Lemma z_object_OK {A} (shape : value → ParseReturn A) v a :
  z_object shape v = OK a → (∃ fields, v = VObj fields) ∧ shape v = OK a.
Proof. destruct v; try done. eauto. Qed.

Lemma refine_OK {A} (check : A → bool) msg p (s : Schema A) v a :
  refine check msg p s v = OK a → s v = OK a ∧ check a = true.
Proof.
  unfold refine. destruct (s v) as [a'| | |]; [|by destruct (check _)|done..].
  destruct (check a') eqn:E; intros [= <-]; done.
Qed.

(** Every result of the combinators that is not [OK] has an issue. *)
Lemma z_string_reported v : reported (z_string v).
Proof. by destruct v. Qed.

Lemma z_string_min_reported n msg v : reported (z_string_min n msg v).
Proof. destruct v; try done. simpl. by case_bool_decide. Qed.

Lemma z_string_email_reported msg v : reported (z_string_email msg v).
Proof. destruct v; try done. simpl. by destruct (zod_email _). Qed.

Lemma z_integer_reported v : reported (z_integer v).
Proof. destruct v; try done. simpl. by destruct (zod_integer _). Qed.

Lemma z_boolean_reported v : reported (z_boolean v).
Proof. by destruct v. Qed.

Lemma z_date_reported v : reported (z_date v).
Proof. by destruct v. Qed.

Lemma z_coerce_date_reported v :
  z_coerce_date v ≠ THROWN → reported (z_coerce_date v).
Proof.
  unfold z_coerce_date. destruct (js_Date v); [done|].
  by destruct (js_Date_throws v).
Qed.

Lemma z_frequency_reported v : reported (z_frequency v).
Proof. destruct v; try done. simpl. by destruct (frequency_of_string _). Qed.

Lemma nullable_reported {A} (s : Schema A) v :
  (∀ v, reported (s v)) → reported (nullable s v).
Proof. intros Hs. destruct v; try done; by apply pr_map_reported. Qed.

Lemma optional_reported {A} (s : Schema A) v :
  (∀ v, reported (s v)) → reported (optional s v).
Proof. intros Hs. destruct v; try done; by apply pr_map_reported. Qed.

Lemma field_reported {A} k (s : Schema A) o :
  reported (s (prop k o)) → reported (field k s o).
Proof. intros Hs. by apply at_path_reported. Qed.

Lemma z_object_reported {A} (shape : value → ParseReturn A) v :
  reported (shape v) → reported (z_object shape v).
Proof. intros Hs. by destruct v. Qed.

Lemma refine_reported {A} (check : A → bool) msg p (s : Schema A) v :
  reported (s v) → reported (refine check msg p s v).
Proof.
  unfold refine. destruct (s v) as [a|a issues|issues|]; simpl; [| |done..].
  - by destruct (check a).
  - intros Hi. destruct (check a); [done|]. simpl. by intros [? ?]%app_eq_nil.
Qed.

Lemma reported_issues {A} (r : ParseReturn A) :
  reported r → (∀ a, r ≠ OK a) → issues_of r ≠ [].
Proof. destruct r; simpl; [|done..]. intros _ Hr. by destruct (Hr a). Qed.
End schema_facts.

Create HintDb reported.
Global Hint Resolve z_string_reported z_string_min_reported z_string_email_reported
  z_integer_reported z_boolean_reported z_date_reported
  z_frequency_reported : reported.

(** Proves [reported] of a schema built from the combinators. *)
Ltac reported_schema :=
  repeat first
    [ apply refine_reported | apply z_object_reported
    | apply pr_ap_reported | apply pr_map_reported
    | apply field_reported
    | apply optional_reported; intros ? | apply nullable_reported; intros ?
    | solve [auto with reported] ].

(** Breaks [schema v = OK a], for a schema built as an object of
    fields, into one equation per field. *)
Ltac invert_object H :=
  apply z_object_OK in H as [[? ->] H]; cbv beta in H;
  repeat (let F := fresh "F" in apply pr_ap_OK in H as (? & ? & H & F%field_OK & ->));
  apply pr_map_OK in H as (? & H%field_OK & ->).

Section repo_schema_facts.
Context `{!Externals}.

Lemma caregiverFormSchema_reported v : reported (caregiverFormSchema v).
Proof. unfold caregiverFormSchema. reported_schema. Qed.

Lemma userCaregiverSchema_reported v : reported (userCaregiverSchema v).
Proof. unfold userCaregiverSchema. reported_schema. Qed.

Lemma medicationFormSchema_reported v :
  z_coerce_date (prop "startTime" v) ≠ THROWN → reported (medicationFormSchema v).
Proof.
  intros Hdate. unfold medicationFormSchema. reported_schema.
  by apply z_coerce_date_reported.
Qed.

(** The form schema throws exactly when the coercion of [startTime]
    does, which takes an object to read [startTime] from. *)
Lemma medicationFormSchema_thrown fields :
  medicationFormSchema (VObj fields) = THROWN ↔
  z_coerce_date (prop "startTime" (VObj fields)) = THROWN.
Proof.
  split.
  - intros Hs. destruct (z_coerce_date _) eqn:Hdate; [..|done];
      (assert (z_coerce_date (prop "startTime" (VObj fields)) ≠ THROWN) as Hq
         by (by rewrite Hdate));
      apply medicationFormSchema_reported in Hq; by rewrite Hs in Hq.
  - intros Hdate. unfold medicationFormSchema, z_object.
    unfold field. rewrite Hdate. cbn [at_path].
    by rewrite pr_ap_thrown_r, !pr_ap_thrown_l.
Qed.

Lemma medicationSchema_partial_reported v : reported (medicationSchema_partial v).
Proof. unfold medicationSchema_partial. reported_schema. Qed.

(** A form that [caregiverFormSchema] accepts is an object whose
    [username], [password] and [confirmPassword] are the strings of
    the result, the last two equal. *)
Lemma caregiverFormSchema_OK v form :
  caregiverFormSchema v = OK form →
  prop "username" v = VStr (CaregiverForm.username form) ∧
  prop "password" v = VStr (CaregiverForm.password form) ∧
  prop "confirmPassword" v = VStr (CaregiverForm.confirmPassword form) ∧
  CaregiverForm.password form = CaregiverForm.confirmPassword form ∧
  nullish v = false.
Proof.
  unfold caregiverFormSchema. intros [Hs Hc]%refine_OK.
  apply bool_decide_eq_true in Hc.
  invert_object Hs. simpl in *.
  apply z_string_OK in Hs, F. apply z_string_min_OK in F4 as [F4 _].
  done.
Qed.

Lemma userCaregiverSchema_OK v data :
  userCaregiverSchema v = OK data →
  prop "userId" v = VNum (InsertUserCaregiver.userId data) ∧
  prop "caregiverId" v = VNum (InsertUserCaregiver.caregiverId data) ∧
  (prop "accessLevel" v ≠ VUndefined →
     ∃ s, prop "accessLevel" v = VStr s ∧ InsertUserCaregiver.accessLevel data = Some s) ∧
  (prop "active" v = VBool true → InsertUserCaregiver.active data = Some (Some true)).
Proof.
  unfold userCaregiverSchema. intros Hs. invert_object Hs.
  apply z_integer_OK in Hs as [Hs _], F1 as [F1 _].
  split_and!; [done..| |].
  - apply optional_OK in F0 as [[? _]|(_ & s & ?%z_string_OK & ->)]; [done|eauto].
  - intros Ha. rewrite Ha in F. by apply optional_OK in F as [[? _]|(_ & ? & [= <-] & ->)].
Qed.

Lemma medicationFormSchema_OK v data :
  medicationFormSchema v = OK data →
  prop "userId" v = VNum (InsertMedication.userId data).
Proof.
  unfold medicationFormSchema. intros Hs. invert_object Hs. simpl.
  by apply z_integer_OK in Hs as [Hs _].
Qed.

Lemma medicationSchema_partial_OK v data n :
  medicationSchema_partial v = OK data →
  prop "userId" v = VNum n →
  PartialMedication.userId data = Some n.
Proof.
  unfold medicationSchema_partial. intros Hs Hn. invert_object Hs.
  rewrite Hn in Hs.
  by apply optional_OK in Hs as [[? _]|(_ & ? & [[= <-] _]%z_integer_OK & ->)].
Qed.
End repo_schema_facts.

(** ** Running a handler *)

Lemma new_calls_app w cs st :
  new_calls w {| store := st; calls := calls w ++ cs |} = cs.
Proof. unfold new_calls. simpl. by rewrite drop_app_length. Qed.

Lemma new_calls_same w : new_calls w w = [].
Proof. unfold new_calls. by rewrite drop_all. Qed.

Section access_control.
Context `{!Externals}.

(** C8: a medication that exists and belongs to someone else is
    refused with 403 on [GET /api/medications/:id]; the answer is the
    error, not the medication, and the store is read once and left
    as it was. *)
Theorem get_medication_forbidden req u w k m :
  user req = Some u →
  parseInt (params_id req) = Some k →
  medications (store w) !! k = Some m →
  Medication.userId m ≠ User.id u →
  get_medication req w =
    (status_json 403 (error "Unauthorized access to medication"),
     {| store := store w; calls := calls w ++ [GetMedication (Some k)] |}) ∧
  payload (get_medication req w).1 ≠ Some (Medication.to_json m).
Proof.
  intros Hu Hk Hm Hne.
  assert (get_medication req w =
    (status_json 403 (error "Unauthorized access to medication"),
     {| store := store w; calls := calls w ++ [GetMedication (Some k)] |})) as ->.
  { enter get_medication. rewrite Hu, Hk. run. unfold Db.getMedication. cbn.
    rewrite Hm. by rewrite bool_decide_true. }
  split; [done|]. by intros [=].
Qed.

Lemma medication_route_unauthenticated h req w :
  h ∈ medication_routes →
  user req = None →
  h req w = (status_json 401 (error "Unauthorized"), w).
Proof.
  intros Hh Hu. unfold medication_routes in Hh.
  repeat (apply elem_of_cons in Hh as [->|Hh]);
    [| | | |by apply elem_of_nil in Hh];
    [enter get_medication|enter put_medication|enter delete_medication
    |enter get_medication_reminders]; by rewrite Hu.
Qed.

Lemma medication_route_not_found h req u w :
  h ∈ medication_routes →
  user req = Some u →
  Db.getMedication (parseInt (params_id req)) (store w) = None →
  h req w =
    (status_json 404 (error "Medication not found"),
     {| store := store w;
        calls := calls w ++ [GetMedication (parseInt (params_id req))] |}).
Proof.
  intros Hh Hu Hm. unfold medication_routes in Hh.
  repeat (apply elem_of_cons in Hh as [->|Hh]);
    [| | | |by apply elem_of_nil in Hh];
    [enter get_medication|enter put_medication|enter delete_medication
    |enter get_medication_reminders]; rewrite Hu; run; by rewrite Hm.
Qed.

Lemma medication_route_forbidden h req u w m :
  h ∈ medication_routes →
  user req = Some u →
  Db.getMedication (parseInt (params_id req)) (store w) = Some m →
  Medication.userId m ≠ User.id u →
  h req w =
    (status_json 403 (error "Unauthorized access to medication"),
     {| store := store w;
        calls := calls w ++ [GetMedication (parseInt (params_id req))] |}).
Proof.
  intros Hh Hu Hm Hne. unfold medication_routes in Hh.
  repeat (apply elem_of_cons in Hh as [->|Hh]);
    [| | | |by apply elem_of_nil in Hh];
    [enter get_medication|enter put_medication|enter delete_medication
    |enter get_medication_reminders]; rewrite Hu; run; rewrite Hm;
    by rewrite bool_decide_true.
Qed.

Lemma put_reminder_not_found req u w :
  user req = Some u →
  nullish (body req) = false →
  parseInt (params_id req) ≫= (medicationReminders (store w) !!.) = None →
  put_reminder req w =
    (status_json 404 (error "Reminder not found"),
     {| store := store w;
        calls := calls w ++ [UpdateMedicationReminder (parseInt (params_id req))
                               (prop "taken" (body req)) (prop "skipped" (body req))] |}).
Proof.
  intros Hu Hb Hr. enter put_reminder. rewrite Hu.
  destruct (parseInt (params_id req)) as [k|]; simpl in Hr;
    destruct (body req) eqn:Eb; try discriminate Hb;
    unfold Db.updateMedicationReminder; run; cbn; by rewrite ?Hr.
Qed.

Lemma put_caregiver_access_not_found req u w :
  user req = Some u →
  nullish (body req) = false →
  parseInt (params_id req) ≫= (userCaregivers (store w) !!.) = None →
  put_caregiver_access req w =
    (status_json 404 (error "Caregiver link not found"),
     {| store := store w;
        calls := calls w ++ [UpdateCaregiverAccess (parseInt (params_id req))
                               (prop "accessLevel" (body req)) (prop "active" (body req))] |}).
Proof.
  intros Hu Hb Hr. enter put_caregiver_access. rewrite Hu.
  destruct (parseInt (params_id req)) as [k|]; simpl in Hr;
    destruct (body req) eqn:Eb; try discriminate Hb;
    unfold Db.updateCaregiverAccess; run; cbn; by rewrite ?Hr.
Qed.

(** C9: called by an authenticated user with an id that refers to no
    row, every [:id] route answers 404: the four medication routes
    when there is no such medication, [PUT /api/reminders/:id] when
    there is no such reminder, [PUT /api/caregivers/:id/access] when
    there is no such link.  The last two read properties of the body
    first, which therefore has to be there (the JSON body parser
    always leaves an object). *)
Theorem missing_id_not_found req u w :
  user req = Some u →
  let id := parseInt (params_id req) in
  (Db.getMedication id (store w) = None →
     status (get_medication req w).1 = 404 ∧
     status (put_medication req w).1 = 404 ∧
     status (delete_medication req w).1 = 404 ∧
     status (get_medication_reminders req w).1 = 404) ∧
  (nullish (body req) = false →
   id ≫= (medicationReminders (store w) !!.) = None →
     status (put_reminder req w).1 = 404) ∧
  (nullish (body req) = false →
   id ≫= (userCaregivers (store w) !!.) = None →
     status (put_caregiver_access req w).1 = 404).
Proof.
  intros Hu id. split; [|split].
  - intros Hm.
    rewrite !(medication_route_not_found _ req u w) by
      (done || unfold medication_routes; set_solver).
    done.
  - intros Hb Hr. by rewrite (put_reminder_not_found req u w).
  - intros Hb Hr. by rewrite (put_caregiver_access_not_found req u w).
Qed.

(** *** The owner's requests *)

Lemma get_medication_owner req u w m :
  user req = Some u →
  Db.getMedication (parseInt (params_id req)) (store w) = Some m →
  Medication.userId m = User.id u →
  get_medication req w =
    (json (Medication.to_json m),
     {| store := store w;
        calls := calls w ++ [GetMedication (parseInt (params_id req))] |}).
Proof.
  intros Hu Hm Ho. enter get_medication. rewrite Hu. run. rewrite Hm.
  by rewrite bool_decide_false by (by intros []).
Qed.

Lemma put_medication_owner req u w m :
  user req = Some u →
  Db.getMedication (parseInt (params_id req)) (store w) = Some m →
  Medication.userId m = User.id u →
  let id := parseInt (params_id req) in
  put_medication req w =
    match medicationSchema_partial (body req) with
    | OK data =>
        (json (from_option Medication.to_json VUndefined
                 (Db.updateMedication id data (store w)).1),
         {| store := (Db.updateMedication id data (store w)).2;
            calls := calls w ++ [GetMedication id; UpdateMedication id data] |})
    | r =>
        (status_json 400 (errors (issues_of r)),
         {| store := store w; calls := calls w ++ [GetMedication id] |})
    end.
Proof.
  intros Hu Hm Ho id. enter put_medication. rewrite Hu. run. rewrite Hm.
  rewrite bool_decide_false by (by intros []).
  pose proof (medicationSchema_partial_reported (body req)) as Hrep.
  destruct (medicationSchema_partial (body req)) as [data| | |];
    [|done..|destruct Hrep].
  cbn. destruct (Db.updateMedication _ data (store w)) as [um st] eqn:E.
  cbn. by rewrite <- app_assoc.
Qed.

Lemma delete_medication_owner req u w m k :
  user req = Some u →
  parseInt (params_id req) = Some k →
  medications (store w) !! k = Some m →
  Medication.userId m = User.id u →
  delete_medication req w =
    (if (Db.deleteMedication (Some k) (store w)).1
     then status_send 204
     else status_json 500 (error "Failed to delete medication"),
     {| store := (Db.deleteMedication (Some k) (store w)).2;
        calls := calls w ++ [GetMedication (Some k); DeleteMedication (Some k)] |}).
Proof.
  intros Hu Hk Hm Ho. enter delete_medication. rewrite Hu, Hk. run.
  unfold Db.getMedication at 1. cbn [mbind option_bind]. rewrite Hm.
  rewrite bool_decide_false by (by intros []). run.
  destruct (Db.deleteMedication (Some k) (store w)) as [[] st]; run;
    by rewrite <- app_assoc.
Qed.

(** A medication that no reminder refers to is deleted. *)
Lemma deleteMedication_unreferenced st k m :
  medications st !! k = Some m →
  Db.getMedicationReminders (Some k) st = [] →
  Db.deleteMedication (Some k) st =
    (true, with_medications (delete k) (medications_seq st) st).
Proof.
  intros Hm Hr. unfold Db.deleteMedication, Db.getMedication. simpl.
  by rewrite Hm, Hr.
Qed.

Lemma get_medication_reminders_owner req u w m :
  user req = Some u →
  Db.getMedication (parseInt (params_id req)) (store w) = Some m →
  Medication.userId m = User.id u →
  let id := parseInt (params_id req) in
  get_medication_reminders req w =
    (json (VArr (MedicationReminder.to_json <$> Db.getMedicationReminders id (store w))),
     {| store := store w;
        calls := calls w ++ [GetMedication id; GetMedicationReminders id] |}).
Proof.
  intros Hu Hm Ho id. enter get_medication_reminders. rewrite Hu. run. rewrite Hm.
  rewrite bool_decide_false by (by intros []). cbn.
  by rewrite <- app_assoc.
Qed.

Lemma getMedication_Some id st m :
  Db.getMedication id st = Some m → ∃ k, id = Some k ∧ medications st !! k = Some m.
Proof. destruct id as [k|]; [|done]. simpl. eauto. Qed.

Lemma medication_route_checks_before_writes h :
  h ∈ medication_routes → checks_before_writes h.
Proof.
  intros Hh req w.
  destruct (user req) as [u|] eqn:Hu.
  2:{ rewrite (medication_route_unauthenticated h) by done. simpl.
      by rewrite new_calls_same. }
  destruct (Db.getMedication (parseInt (params_id req)) (store w)) as [m|] eqn:Hm.
  2:{ rewrite (medication_route_not_found h req u) by done. simpl.
      rewrite new_calls_app. intros _. split; [|done].
      by repeat constructor. }
  destruct (decide (Medication.userId m = User.id u)) as [Ho|Ho].
  2:{ rewrite (medication_route_forbidden h req u w m) by done. simpl.
      rewrite new_calls_app. intros _. split; [|done].
      by repeat constructor. }
  unfold medication_routes in Hh.
  repeat (apply elem_of_cons in Hh as [->|Hh]); [| | | |by apply elem_of_nil in Hh].
  - by rewrite (get_medication_owner req u w m).
  - rewrite (put_medication_owner req u w m) by done.
    destruct (medicationSchema_partial (body req)); [done| | |]; simpl;
      rewrite new_calls_app; intros _; (split; [|done]); by repeat constructor.
  - apply getMedication_Some in Hm as (k & Hk & Hm).
    rewrite (delete_medication_owner req u w m k) by done.
    by destruct (Db.deleteMedication (Some k) (store w)).1.
  - by rewrite (get_medication_reminders_owner req u w m).
Qed.

(** X20: the four routes on a stored medication handle a request in
    the order authentication (401),
    fetch of the medication, 404 when there is none, 403 when it is
    someone else's, then on PUT the validation of the body (400 with
    the issues), and only then the write.  A request turned down has
    made no writing call and left the store as it was. *)
Theorem medication_routes_check_in_order :
  Forall (λ h : Handler,
    checks_before_writes h ∧
    ∀ req w,
      let id := parseInt (params_id req) in
      match user req, Db.getMedication id (store w) with
      | None, _ => h req w = (status_json 401 (error "Unauthorized"), w)
      | Some u, None =>
          status (h req w).1 = 404 ∧ new_calls w (h req w).2 = [GetMedication id]
      | Some u, Some m =>
          if decide (Medication.userId m = User.id u)
          then head (new_calls w (h req w).2) = Some (GetMedication id)
          else status (h req w).1 = 403 ∧ new_calls w (h req w).2 = [GetMedication id]
      end) medication_routes ∧
  ∀ req u w m,
    let id := parseInt (params_id req) in
    user req = Some u →
    Db.getMedication id (store w) = Some m →
    Medication.userId m = User.id u →
    match medicationSchema_partial (body req) with
    | OK data =>
        status (put_medication req w).1 = 200 ∧
        new_calls w (put_medication req w).2 =
          [GetMedication id; UpdateMedication id data]
    | r =>
        (put_medication req w).1 = status_json 400 (errors (issues_of r)) ∧
        new_calls w (put_medication req w).2 = [GetMedication id]
    end.
Proof.
  split.
  - apply Forall_forall. intros h Hh. split.
    { by apply medication_route_checks_before_writes. }
    intros req w id.
    destruct (user req) as [u|] eqn:Hu.
    2:{ by apply medication_route_unauthenticated. }
    destruct (Db.getMedication id (store w)) as [m|] eqn:Hm.
    2:{ rewrite (medication_route_not_found h req u) by done. simpl.
        by rewrite new_calls_app. }
    case_decide as Ho.
    2:{ rewrite (medication_route_forbidden h req u w m) by done. simpl.
        by rewrite new_calls_app. }
    unfold medication_routes in Hh.
    repeat (apply elem_of_cons in Hh as [->|Hh]); [| | | |by apply elem_of_nil in Hh].
    + rewrite (get_medication_owner req u w m) by done. simpl.
      by rewrite new_calls_app.
    + rewrite (put_medication_owner req u w m) by done.
      destruct (medicationSchema_partial (body req)); simpl;
        by rewrite new_calls_app.
    + apply getMedication_Some in Hm as (k & Hk & Hm). subst id.
      rewrite (delete_medication_owner req u w m k) by done. simpl.
      rewrite new_calls_app. by rewrite Hk.
    + rewrite (get_medication_reminders_owner req u w m) by done. simpl.
      by rewrite new_calls_app.
  - intros req u w m id Hu Hm Ho.
    rewrite (put_medication_owner req u w m) by done. fold id.
    destruct (medicationSchema_partial (body req)); simpl;
      by rewrite new_calls_app.
Qed.
End access_control.

(** ** Caregivers *)

Section caregivers.
Context `{!Externals}.

(** What [POST /api/caregivers] does for an authenticated user, step
    by step. *)
Lemma post_caregivers_authenticated req u w :
  user req = Some u →
  post_caregivers req w =
    match caregiverFormSchema (body req) with
    | OK form =>
        let data := CaregiverForm.caregiverData form in
        let look := GetCaregiverByUsername (InsertCaregiver.username data) in
        match Db.getCaregiverByUsername (InsertCaregiver.username data) (store w) with
        | Some _ =>
            (status_json 400 (error "Username already exists"),
             {| store := store w; calls := calls w ++ [look] |})
        | None =>
            let created := Db.createCaregiver data (store w) in
            match userCaregiverSchema
                    (VObj [("userId", VNum (User.id u));
                           ("caregiverId", VNum (Caregiver.id created.1));
                           ("accessLevel",
                            js_or (prop "accessLevel" (body req)) (VStr "full"));
                           ("active", VBool true)]) with
            | OK link =>
                let linked := Db.linkCaregiverToUser link created.2 in
                (status_json 201
                   (VObj (set_prop "accessLevel" (UserCaregiver.accessLevel linked.1)
                                   (own_props (Caregiver.to_json created.1)))),
                 {| store := linked.2;
                    calls := calls w ++ [look; CreateCaregiver data;
                                         LinkCaregiverToUser link] |})
            | r =>
                (status_json 400 (errors (issues_of r)),
                 {| store := created.2;
                    calls := calls w ++ [look; CreateCaregiver data] |})
            end
        end
    | r => (status_json 400 (errors (issues_of r)), w)
    end.
Proof.
  intros Hu. enter post_caregivers. rewrite Hu. run.
  pose proof (caregiverFormSchema_reported (body req)) as Hrep.
  destruct (caregiverFormSchema (body req)) as [form| | |] eqn:Hform;
    [|done..|destruct Hrep].
  apply caregiverFormSchema_OK in Hform as (_ & _ & _ & _ & Hb).
  run. destruct (Db.getCaregiverByUsername _ (store w)); [done|].
  run. destruct (Db.createCaregiver _ (store w)) as [c st1] eqn:Hc. run.
  destruct (body req) eqn:Eb; try discriminate Hb;
    (match goal with
     | |- context [userCaregiverSchema ?v] =>
         pose proof (userCaregiverSchema_reported v) as Hrep';
         destruct (userCaregiverSchema v) as [link| | |]
     end; run; rewrite <- ?app_assoc; try done; try (by destruct Hrep');
     destruct (Db.linkCaregiverToUser link st1) as [l st2]; run;
     by rewrite <- app_assoc).
Qed.

Lemma getCaregiverByUsername_exists st k c :
  caregivers st !! k = Some c →
  is_Some (Db.getCaregiverByUsername (Caregiver.username c) st).
Proof.
  intros Hc. unfold Db.getCaregiverByUsername.
  destruct (list_find_elem_of (λ c', Caregiver.username c' = Caregiver.username c)
              (map_to_list (caregivers st)).*2 c) as [[i c'] Hfind]; [|done|].
  - apply list_elem_of_fmap. exists (k, c). split; [done|].
    by apply elem_of_map_to_list.
  - rewrite Hfind. by eexists.
Qed.

Lemma js_or_full_defined a : js_or a (VStr "full") ≠ VUndefined.
Proof. unfold js_or. destruct a; simpl; try done; by case_match. Qed.

(** What a successful [POST /api/caregivers] has done. *)
Lemma post_caregivers_created req w :
  status (post_caregivers req w).1 = 201 →
  ∃ u form link,
    user req = Some u ∧
    caregiverFormSchema (body req) = OK form ∧
    let created := Db.createCaregiver (CaregiverForm.caregiverData form) (store w) in
    userCaregiverSchema
      (VObj [("userId", VNum (User.id u));
             ("caregiverId", VNum (Caregiver.id created.1));
             ("accessLevel", defaulted_accessLevel req);
             ("active", VBool true)]) = OK link ∧
    let linked := Db.linkCaregiverToUser link created.2 in
    (post_caregivers req w).1 =
      status_json 201
        (VObj (set_prop "accessLevel" (UserCaregiver.accessLevel linked.1)
                        (own_props (Caregiver.to_json created.1)))) ∧
    store (post_caregivers req w).2 = linked.2.
Proof.
  destruct (user req) as [u|] eqn:Hu.
  2:{ enter post_caregivers. by rewrite Hu. }
  rewrite (post_caregivers_authenticated req u w Hu).
  destruct (caregiverFormSchema (body req)) as [form| | |]; [|done..].
  cbv zeta. destruct (Db.getCaregiverByUsername _ (store w)); [done|].
  fold (defaulted_accessLevel req).
  destruct (userCaregiverSchema _) as [link| | |] eqn:Hlink; [|done..].
  intros _. exists u, form, link. by rewrite Hlink.
Qed.

(** C3: whenever the body's [password] and [confirmPassword] differ,
    [POST /api/caregivers] answers 400 with a non-empty list of
    validation issues, makes no call on the store and leaves it as it
    was: no caregiver and no link is created. *)
Theorem post_caregivers_password_mismatch req u w :
  user req = Some u →
  prop "password" (body req) ≠ prop "confirmPassword" (body req) →
  ∃ issues,
    issues ≠ [] ∧
    post_caregivers req w = (status_json 400 (errors issues), w).
Proof.
  intros Hu Hne. rewrite (post_caregivers_authenticated req u w Hu).
  pose proof (caregiverFormSchema_reported (body req)) as Hrep.
  destruct (caregiverFormSchema (body req)) as [form|a issues|issues|] eqn:Hform.
  - apply caregiverFormSchema_OK in Hform as (_ & Hp & Hcp & Heq & _).
    destruct Hne. by rewrite Hp, Hcp, Heq.
  - by exists issues.
  - by exists issues.
  - destruct Hrep.
Qed.

(** C6: when the body's [username] is that of a caregiver already in
    the store, [POST /api/caregivers] answers 400 and the store is as
    it was: no second caregiver of that name is created. *)
Theorem post_caregivers_duplicate_username req u w k c :
  user req = Some u →
  caregivers (store w) !! k = Some c →
  prop "username" (body req) = VStr (Caregiver.username c) →
  status (post_caregivers req w).1 = 400 ∧
  store (post_caregivers req w).2 = store w.
Proof.
  intros Hu Hc Hname. rewrite (post_caregivers_authenticated req u w Hu).
  destruct (caregiverFormSchema (body req)) as [form| | |] eqn:Hform; [|done..].
  apply caregiverFormSchema_OK in Hform as (Hn & _).
  rewrite Hname in Hn. injection Hn as Hn. cbv zeta.
  destruct (getCaregiverByUsername_exists (store w) k c Hc) as [c' Hc'].
  replace (InsertCaregiver.username (CaregiverForm.caregiverData form))
    with (Caregiver.username c) by done.
  by rewrite Hc'.
Qed.

(** C4: the 201 answer of [POST /api/caregivers] is the stored
    caregiver record spread into an object, with [accessLevel] added;
    its [password] property is the password the store holds. *)
Theorem post_caregivers_returns_password req w :
  status (post_caregivers req w).1 = 201 →
  ∃ c level,
    caregivers (store (post_caregivers req w).2) !! caregivers_seq (store w) = Some c ∧
    payload (post_caregivers req w).1 =
      Some (VObj (set_prop "accessLevel" level (own_props (Caregiver.to_json c)))) ∧
    prop "password"
      (VObj (set_prop "accessLevel" level (own_props (Caregiver.to_json c)))) =
      VStr (Caregiver.password c).
Proof.
  intros (u & form & link & Hu & Hform & Hlink & Hresp & Hstore)%post_caregivers_created.
  cbv zeta in *. rewrite Hresp, Hstore.
  eexists _, _. split_and!; [|done|].
  - simpl. apply lookup_insert_eq.
  - by rewrite prop_set_prop_ne.
Qed.

(** C7, as the code has it: a successful [POST /api/caregivers] has
    created a join record that links the requesting user to the new
    caregiver, active, whose access level is the request's when that
    is truthy (a non-empty string) and full otherwise, and answers
    with the caregiver record merged with that level. *)
Theorem post_caregivers_links req w : links_at_level defaulted_accessLevel req w.
Proof.
  intros (u & form & link & Hu & Hform & Hlink & Hresp & Hstore)%post_caregivers_created.
  cbv zeta in *. rewrite Hresp, Hstore.
  apply userCaregiverSchema_OK in Hlink as (Hid & Hcid & Hlevel & Hactive).
  destruct Hlevel as (s & Hs & Hdata).
  { simpl. unfold defaulted_accessLevel. apply js_or_full_defined. }
  simpl in Hid, Hcid, Hs. injection Hid as Hid. injection Hcid as Hcid.
  eexists u, _, _. split_and!; [done| | |..].
  - simpl. apply lookup_insert_eq.
  - simpl. apply lookup_insert_eq.
  - done.
  - by simpl.
  - simpl. by rewrite Hactive.
  - simpl. by rewrite Hdata, Hs.
  - simpl. by rewrite Hdata, Hs.
Qed.
End caregivers.

(** ** Medications *)

Section medications.
Context `{!Externals}.

(** What [POST /api/medications] does for an authenticated user. *)
Lemma post_medications_authenticated req u w :
  user req = Some u →
  post_medications req w =
    match medicationFormSchema
            (VObj (set_prop "userId" (VNum (User.id u)) (own_props (body req)))) with
    | OK data =>
        (status_json 201 (Medication.to_json (Db.createMedication data (store w)).1),
         {| store := (Db.createMedication data (store w)).2;
            calls := calls w ++ [CreateMedication data] |})
    | THROWN => (status_json 500 (error "Failed to create medication"), w)
    | r => (status_json 400 (errors (issues_of r)), w)
    end.
Proof.
  intros Hu. enter post_medications. rewrite Hu. run.
  destruct (medicationFormSchema _) as [data| | |]; [|done..].
  run. by destruct (Db.createMedication data (store w)).
Qed.

(** C10: [POST /api/medications] puts the session user's id under
    [userId] before it validates, whatever the body said: what is
    validated is the body with [userId] overwritten, so the answer is
    201 exactly when that object passes the form schema (a body with
    no [userId], or with one of the wrong type, passes as well), the
    stored medication is made of the validated data, and a creation
    that succeeds adds exactly one medication, under the next id, whose
    [userId] is the id of the user who created it. *)
Theorem post_medications_owner req u w :
  user req = Some u →
  let input := VObj (set_prop "userId" (VNum (User.id u)) (own_props (body req))) in
  prop "userId" input = VNum (User.id u) ∧
  (status (post_medications req w).1 = 201 ↔
     ∃ data, medicationFormSchema input = OK data) ∧
  (∀ data, medicationFormSchema input = OK data →
     post_medications req w =
       (status_json 201 (Medication.to_json (Db.createMedication data (store w)).1),
        {| store := (Db.createMedication data (store w)).2;
           calls := calls w ++ [CreateMedication data] |})) ∧
  (status (post_medications req w).1 = 201 →
   ∃ m,
     medications (store (post_medications req w).2)
       = <[medications_seq (store w) := m]> (medications (store w)) ∧
     Medication.userId m = User.id u ∧
     payload (post_medications req w).1 = Some (Medication.to_json m)).
Proof.
  intros Hu input. rewrite (post_medications_authenticated req u w Hu). fold input.
  split; [apply prop_set_prop|].
  destruct (medicationFormSchema input) as [data| | |] eqn:Hdata.
  - split_and!; [split; eauto|by intros ? [= <-]|].
    intros _. apply medicationFormSchema_OK in Hdata.
    unfold input in Hdata. rewrite prop_set_prop in Hdata.
    injection Hdata as Hdata. eexists. split_and!; [done| |done].
    by simpl.
  - split_and!; [split; [done|by intros [? ?]]|done..].
  - split_and!; [split; [done|by intros [? ?]]|done..].
  - split_and!; [split; [done|by intros [? ?]]|done..].
Qed.

(** C5: [PUT /api/medications/:id] validates against the partial
    medication schema, which has a [userId] key.  When the owner
    sends a valid body whose [userId] is another user's id, the
    answer is 200, the medication now carries that id, and from then
    on each of the owner's requests on it is refused with 403. *)
Theorem put_medication_reassigns req u w k m v :
  user req = Some u →
  parseInt (params_id req) = Some k →
  medications (store w) !! k = Some m →
  Medication.userId m = User.id u →
  (∃ data, medicationSchema_partial (body req) = OK data) →
  prop "userId" (body req) = VNum v →
  v ≠ User.id u →
  status (put_medication req w).1 = 200 ∧
  (∃ m', medications (store (put_medication req w).2) !! k = Some m' ∧
         Medication.userId m' = v) ∧
  ∀ h req',
    h ∈ medication_routes →
    user req' = Some u →
    parseInt (params_id req') = Some k →
    status (h req' (put_medication req w).2).1 = 403.
Proof.
  intros Hu Hk Hm Ho [data Hdata] Hv Hne.
  pose proof (medicationSchema_partial_OK _ _ _ Hdata Hv) as Hid.
  rewrite (put_medication_owner req u w m) by (by rewrite ?Hk).
  rewrite Hdata, Hk. unfold Db.updateMedication, Db.getMedication. simpl.
  rewrite Hm, Hid. simpl. split_and!; [done| |].
  - eexists. by rewrite lookup_insert_eq.
  - intros h req' Hh Hu' Hk'.
    erewrite (medication_route_forbidden h req' u); [done..| |].
    + rewrite Hk'. simpl. apply lookup_insert_eq.
    + done.
Qed.
End medications.

(** ** The worked instance *)

Section examples.
Local Existing Instance example_externals.

Example parseInt_42 : parseInt "42" = Some 42.
Proof. reflexivity. Qed.
Example parseInt_prefix : parseInt " -17abc" = Some (-17).
Proof. reflexivity. Qed.
Example parseInt_hex : parseInt "0x1F" = Some 31.
Proof. reflexivity. Qed.
Example parseInt_NaN : parseInt "abc" = NaN.
Proof. reflexivity. Qed.

(** C1: Alice marks Bob's insulin reminder as taken.  The answer is
    403, and yet the reminder, which was not taken, now is: the route
    updates the reminder before it looks up who owns the medication. *)
Theorem put_reminder_writes_before_check :
  let req := {| user := Some alice; params_id := "2";
                body := VObj [("taken", VBool true)] |} in
  status (put_reminder req example_world).1 = 403 ∧
  MedicationReminder.taken <$> medicationReminders example_store !! 2
    = Some (VBool false) ∧
  MedicationReminder.taken <$>
    medicationReminders (store (put_reminder req example_world).2) !! 2
    = Some (VBool true) ∧
  calls (put_reminder req example_world).2 =
    [UpdateMedicationReminder (Some 2) (VBool true) VUndefined;
     GetMedication (Some 2)].
Proof. vm_compute. done. Qed.

(** C2: Bob changes the link between Alice and Carol through
    [PUT /api/caregivers/:id/access].  The answer is 403, and yet the
    link, which stood at full, now stands at read-only: the one call
    the route made is the update, before it looked at whose link it
    is.  So this route does not check before it writes. *)
Theorem put_caregiver_access_writes_before_check :
  let req := {| user := Some bob; params_id := "1";
                body := VObj [("accessLevel", VStr "read-only")] |} in
  status (put_caregiver_access req example_world).1 = 403 ∧
  UserCaregiver.userId <$> userCaregivers example_store !! 1 = Some (User.id alice) ∧
  UserCaregiver.accessLevel <$> userCaregivers example_store !! 1
    = Some (VStr "full") ∧
  UserCaregiver.accessLevel <$>
    userCaregivers (store (put_caregiver_access req example_world).2) !! 1
    = Some (VStr "read-only") ∧
  calls (put_caregiver_access req example_world).2 =
    [UpdateCaregiverAccess (Some 1) (VStr "read-only") VUndefined] ∧
  ¬ checks_before_writes put_caregiver_access.
Proof.
  split_and!; [by vm_compute..|].
  intros Hc.
  destruct (Hc {| user := Some bob; params_id := "1";
                  body := VObj [("accessLevel", VStr "read-only")] |}
               example_world) as [Hw _]; [by vm_compute|].
  vm_compute in Hw. by inversion Hw.
Qed.

(** C7 fails on an empty access level: the request gives one, the
    empty string, and the link is made at level full. *)
Lemma post_caregivers_empty_accessLevel :
  ¬ links_at_level requested_accessLevel
      {| user := Some alice; params_id := "";
         body := VObj (("accessLevel", VStr "") :: dave_form) |}
      example_world.
Proof.
  intros Hl.
  destruct Hl as (u & c & l & _ & _ & Hl & _ & _ & _ & Hlevel & _); [by vm_compute|].
  vm_compute in Hl. injection Hl as <-. by vm_compute in Hlevel.
Qed.

(** Bob asks for Alice's aspirin. *)
Lemma get_medication_forbidden_witness :
  let req := {| user := Some bob; params_id := "1"; body := VUndefined |} in
  get_medication req example_world =
    (status_json 403 (error "Unauthorized access to medication"),
     {| store := example_store; calls := [GetMedication (Some 1)] |}) ∧
  payload (get_medication req example_world).1 ≠ Some (Medication.to_json aspirin).
Proof.
  apply (get_medication_forbidden
           {| user := Some bob; params_id := "1"; body := VUndefined |}
           bob example_world 1 aspirin); [reflexivity..|discriminate].
Defined.

(** Alice uses an id, 99, that no table has. *)
Lemma missing_id_not_found_witness :
  let req := {| user := Some alice; params_id := "99"; body := VObj [] |} in
  status (get_medication req example_world).1 = 404 ∧
  status (put_medication req example_world).1 = 404 ∧
  status (delete_medication req example_world).1 = 404 ∧
  status (get_medication_reminders req example_world).1 = 404 ∧
  status (put_reminder req example_world).1 = 404 ∧
  status (put_caregiver_access req example_world).1 = 404.
Proof.
  destruct (missing_id_not_found
              {| user := Some alice; params_id := "99"; body := VObj [] |}
              alice example_world eq_refl) as (Hm & Hr & Hl).
  destruct (Hm eq_refl) as (? & ? & ? & ?).
  pose proof (Hr eq_refl eq_refl). pose proof (Hl eq_refl eq_refl).
  repeat split; assumption.
Defined.

(** The routes on a stored medication, on a request without session. *)
Lemma medication_routes_check_in_order_witness :
  Forall (λ h : Handler,
    h {| user := None; params_id := "1"; body := VObj [] |} example_world
      = (status_json 401 (error "Unauthorized"), example_world))
    medication_routes.
Proof.
  destruct medication_routes_check_in_order as [Hall _].
  eapply Forall_impl; [exact Hall|].
  intros h [_ Hh].
  exact (Hh {| user := None; params_id := "1"; body := VObj [] |} example_world).
Defined.

(** Alice sends a form whose two passwords differ. *)
Lemma post_caregivers_password_mismatch_witness :
  let req := {| user := Some alice; params_id := "";
                body := VObj (("confirmPassword", VStr "davepass2") :: dave_form) |} in
  ∃ issues,
    issues ≠ [] ∧
    post_caregivers req example_world = (status_json 400 (errors issues), example_world).
Proof.
  apply (post_caregivers_password_mismatch
           {| user := Some alice; params_id := "";
              body := VObj (("confirmPassword", VStr "davepass2") :: dave_form) |}
           alice example_world); [reflexivity|discriminate].
Defined.

(** Alice sends a form under Carol's username. *)
Lemma post_caregivers_duplicate_username_witness :
  let req := {| user := Some alice; params_id := "";
                body := VObj (("username", VStr "carol") :: dave_form) |} in
  status (post_caregivers req example_world).1 = 400 ∧
  store (post_caregivers req example_world).2 = example_store.
Proof.
  apply (post_caregivers_duplicate_username
           {| user := Some alice; params_id := "";
              body := VObj (("username", VStr "carol") :: dave_form) |}
           alice example_world 1 carol); reflexivity.
Defined.

(** Alice makes Dave her caregiver. *)
Lemma post_caregivers_returns_password_witness :
  ∃ c level,
    caregivers (store (post_caregivers add_dave example_world).2) !! 2 = Some c ∧
    payload (post_caregivers add_dave example_world).1 =
      Some (VObj (set_prop "accessLevel" level (own_props (Caregiver.to_json c)))) ∧
    prop "password"
      (VObj (set_prop "accessLevel" level (own_props (Caregiver.to_json c)))) =
      VStr (Caregiver.password c).
Proof.
  apply (post_caregivers_returns_password add_dave example_world).
  vm_compute. reflexivity.
Defined.

Lemma post_caregivers_links_witness :
  ∃ u c l,
    user add_dave = Some u ∧
    caregivers (store (post_caregivers add_dave example_world).2) !! 2 = Some c ∧
    userCaregivers (store (post_caregivers add_dave example_world).2) !! 2 = Some l ∧
    UserCaregiver.userId l = User.id u ∧
    UserCaregiver.caregiverId l = Caregiver.id c ∧
    UserCaregiver.active l = VBool true ∧
    UserCaregiver.accessLevel l = VStr "full" ∧
    payload (post_caregivers add_dave example_world).1 =
      Some (VObj (set_prop "accessLevel" (VStr "full")
                           (own_props (Caregiver.to_json c)))).
Proof.
  apply (post_caregivers_links add_dave example_world).
  vm_compute. reflexivity.
Defined.

(** Bob creates a medication with a body that names Alice as owner,
    and not even by a number. *)
Lemma post_medications_owner_witness :
  status (post_medications add_ibuprofen_as_alice example_world).1 = 201 ∧
  ∃ m,
    medications (store (post_medications add_ibuprofen_as_alice example_world).2)
      = <[3 := m]> (medications example_store) ∧
    Medication.userId m = 2 ∧
    payload (post_medications add_ibuprofen_as_alice example_world).1
      = Some (Medication.to_json m).
Proof.
  destruct (post_medications_owner add_ibuprofen_as_alice bob example_world eq_refl)
    as (_ & Hiff & _ & Hcreated).
  assert (status (post_medications add_ibuprofen_as_alice example_world).1 = 201)
    as H201.
  { apply Hiff. eexists. vm_compute. reflexivity. }
  split; [exact H201|exact (Hcreated H201)].
Defined.

(** Alice hands her aspirin over to Bob. *)
Lemma put_medication_reassigns_witness :
  let req := {| user := Some alice; params_id := "1";
                body := VObj [("userId", VNum 2)] |} in
  status (put_medication req example_world).1 = 200 ∧
  (∃ m', medications (store (put_medication req example_world).2) !! 1 = Some m' ∧
         Medication.userId m' = 2) ∧
  ∀ h req',
    h ∈ medication_routes →
    user req' = Some alice →
    parseInt (params_id req') = Some 1 →
    status (h req' (put_medication req example_world).2).1 = 403.
Proof.
  apply (put_medication_reassigns
           {| user := Some alice; params_id := "1";
              body := VObj [("userId", VNum 2)] |}
           alice example_world 1 aspirin 2);
    [reflexivity..| |reflexivity|discriminate].
  eexists. vm_compute. reflexivity.
Defined.
End examples.

(** * Further properties *)

(** ** The issues of an object *)

Lemma issues_of_map {A B} (f : A → B) r : issues_of (f <$> r) = issues_of r.
Proof. by destruct r. Qed.

Lemma issues_of_ap {A B} (f : ParseReturn (A → B)) x :
  reported f → reported x →
  issues_of (f <*> x) = (issues_of f ++ issues_of x)%list.
Proof. destruct f, x; simpl; try done; intros; by rewrite ?app_nil_r. Qed.

Lemma frequency_of_to_string f : frequency_of_string (frequency_to_string f) = Some f.
Proof. by destruct f. Qed.

Lemma frequency_to_of_string s f :
  frequency_of_string s = Some f → frequency_to_string f = s.
Proof.
  unfold frequency_of_string.
  destruct (list_find _ _) as [[i f']|] eqn:Hfind; [|done].
  intros [= <-]. by apply list_find_Some in Hfind as (_ & ? & _).
Qed.

Section schema_shapes.
Context `{!Externals}.

Lemma z_frequency_iff v f :
  z_frequency v = OK f ↔ v = VStr (frequency_to_string f).
Proof.
  split.
  - destruct v; try done. simpl.
    destruct (frequency_of_string s) eqn:Hs; [|done].
    intros [= <-]. by rewrite (frequency_to_of_string _ _ Hs).
  - intros ->. simpl. by rewrite frequency_of_to_string.
Qed.

Lemma optional_nullable_string_OK v o :
  optional (nullable z_string) v = OK o ↔ v = optional_nullable VStr o.
Proof.
  split.
  - destruct v; simpl; intros [= <-]; done.
  - intros ->. by destruct o as [[?|]|].
Qed.

Lemma optional_nullable_boolean_OK v o :
  optional (nullable z_boolean) v = OK o ↔ v = optional_nullable VBool o.
Proof.
  split.
  - destruct v; simpl; intros [= <-]; done.
  - intros ->. by destruct o as [[?|]|].
Qed.



Lemma z_integer_accepts v n : z_integer v = OK n ↔ v = VNum n ∧ zod_integer n = [].
Proof.
  split; [apply z_integer_OK|].
  intros [-> Hn]. simpl. by rewrite Hn.
Qed.

Lemma z_string_accepts v s : z_string v = OK s ↔ v = VStr s.
Proof. split; [apply z_string_OK|by intros ->]. Qed.

Lemma z_coerce_date_accepts v t : z_coerce_date v = OK t ↔ js_Date v = Some t.
Proof.
  unfold z_coerce_date. destruct (js_Date v); [split; intros [=]; by subst|].
  by destruct (js_Date_throws v).
Qed.

(** The coercion throws exactly where [new Date] does. *)
Lemma z_coerce_date_thrown v :
  z_coerce_date v = THROWN ↔ js_Date v = None ∧ js_Date_throws v = true.
Proof.
  unfold z_coerce_date. destruct (js_Date v); [by split; [|intros []]|].
  destruct (js_Date_throws v); by split; [|intros []].
Qed.

Lemma field_accepts {A} k (s : Schema A) o a : field k s o = OK a ↔ s (prop k o) = OK a.
Proof.
  split; [apply field_OK|]. unfold field. by intros ->.
Qed.

Lemma caregiverFormSchema_inv v form :
  caregiverFormSchema v = OK form →
    (∃ fields, v = VObj fields) ∧
    prop "username" v = VStr (CaregiverForm.username form) ∧
    prop "password" v = VStr (CaregiverForm.password form) ∧
    (8 ≤ String.length (CaregiverForm.password form))%nat ∧
    prop "fullName" v = VStr (CaregiverForm.fullName form) ∧
    prop "phone" v = optional_nullable VStr (CaregiverForm.phone form) ∧
    prop "email" v = VStr (CaregiverForm.email form) ∧
    zod_email (CaregiverForm.email form) = true ∧
    prop "relation" v = optional_nullable VStr (CaregiverForm.relation form) ∧
    prop "confirmPassword" v = VStr (CaregiverForm.confirmPassword form) ∧
    CaregiverForm.password form = CaregiverForm.confirmPassword form.
Proof.
  unfold caregiverFormSchema.
  intros [Hs Hc]%refine_OK. apply bool_decide_eq_true in Hc.
  apply z_object_OK in Hs as [Hobj Hs]. split; [done|].
  cbv beta in Hs.
  repeat (let F := fresh "F" in
          apply pr_ap_OK in Hs as (? & ? & Hs & F%field_OK & ->)).
  apply pr_map_OK in Hs as (? & Hs%field_OK & ->). simpl in Hc |- *.
  apply z_string_OK in Hs, F, F3.
  apply z_string_min_OK in F4 as [F4 ?].
  apply z_string_email_OK in F1 as [F1 ?].
  apply optional_nullable_string_OK in F0, F2.
  done.
Qed.


(** X3: what [medicationFormSchema] accepts, exactly: an object whose
    [userId] is a number the integer column takes, whose [name] and
    [dosage] are strings, whose [frequency] is one of the seven names,
    whose [startTime] makes a valid [Date], and whose [notes] and
    [active] are absent, [null], or a string and a boolean. *)
Theorem medicationFormSchema_accepts v data :
  medicationFormSchema v = OK data ↔
    (∃ fields, v = VObj fields) ∧
    prop "userId" v = VNum (InsertMedication.userId data) ∧
    zod_integer (InsertMedication.userId data) = [] ∧
    prop "name" v = VStr (InsertMedication.name data) ∧
    prop "dosage" v = VStr (InsertMedication.dosage data) ∧
    prop "frequency" v = VStr (frequency_to_string (InsertMedication.frequency data)) ∧
    js_Date (prop "startTime" v) = Some (InsertMedication.startTime data) ∧
    prop "notes" v = optional_nullable VStr (InsertMedication.notes data) ∧
    prop "active" v = optional_nullable VBool (InsertMedication.active data).
Proof.
  unfold medicationFormSchema. split.
  - intros Hs. apply z_object_OK in Hs as [Hobj Hs]. split; [done|].
    cbv beta in Hs.
    repeat (let F := fresh "F" in
            apply pr_ap_OK in Hs as (? & ? & Hs & F%field_OK & ->)).
    apply pr_map_OK in Hs as (? & Hs%field_OK & ->). simpl.
    apply z_integer_OK in Hs as [Hs ?].
    apply z_string_OK in F3, F4.
    apply z_frequency_iff in F2. apply z_coerce_date_accepts in F1.
    apply optional_nullable_string_OK in F0.
    apply optional_nullable_boolean_OK in F.
    done.
  - intros ([fields ->] & Hu & Hint & Hn & Hd & Hf & Ht & Hnotes & Hact).
    unfold z_object.
    rewrite (proj2 (field_accepts "userId" _ _ _)
               (proj2 (z_integer_accepts _ _) (conj Hu Hint))).
    rewrite (proj2 (field_accepts "name" _ _ _) (proj2 (z_string_accepts _ _) Hn)).
    rewrite (proj2 (field_accepts "dosage" _ _ _) (proj2 (z_string_accepts _ _) Hd)).
    rewrite (proj2 (field_accepts "frequency" _ _ _) (proj2 (z_frequency_iff _ _) Hf)).
    rewrite (proj2 (field_accepts "startTime" _ _ _)
               (proj2 (z_coerce_date_accepts _ _) Ht)).
    rewrite (proj2 (field_accepts "notes" _ _ _)
               (proj2 (optional_nullable_string_OK _ _) Hnotes)).
    rewrite (proj2 (field_accepts "active" _ _ _)
               (proj2 (optional_nullable_boolean_OK _ _) Hact)).
    simpl. by destruct data.
Qed.
End schema_shapes.

Section schema_issues.
Context `{!Externals}.

Lemma issues_of_refine {A} (check : A → bool) msg p (s : Schema A) v i :
  i ∈ issues_of (s v) → i ∈ issues_of (refine check msg p s v).
Proof.
  unfold refine. destruct (s v) as [a|a issues|issues|]; simpl; [|..].
  - by intros ?%elem_of_nil.
  - destruct (check a); simpl; [done|]. intros. apply elem_of_app. by left.
  - done.
  - done.
Qed.

(** X4: every key of the caregiver form is checked, whatever is wrong with
    the others: a password shorter than 8 characters is always among
    the issues, at path [password], with the message of the schema. *)
Theorem caregiverFormSchema_short_password fields s :
  prop "password" (VObj fields) = VStr s →
  (String.length s < 8)%nat →
  {| code := too_small; path := ["password"];
     message := "Password must be at least 8 characters" |}
    ∈ issues_of (caregiverFormSchema (VObj fields)).
Proof.
  intros Hp Hlen. unfold caregiverFormSchema. apply issues_of_refine.
  unfold z_object. rewrite !issues_of_ap, issues_of_map by (by reported_schema).
  do 5 (apply elem_of_app; left). apply elem_of_app; right.
  unfold field. rewrite Hp. simpl.
  rewrite bool_decide_false by lia. simpl. apply list_elem_of_singleton. done.
Qed.

(** X5: the comparison of the two passwords runs as soon as every key has
    a value of the right type, also when the password is too short or
    the email is no address: two different strings are then reported
    at path [confirmPassword] as not matching. *)
Theorem caregiverFormSchema_mismatch_reported v username password fullName email
    confirmPassword phone relation :
  (∃ fields, v = VObj fields) →
  prop "username" v = VStr username →
  prop "password" v = VStr password →
  prop "fullName" v = VStr fullName →
  prop "phone" v = optional_nullable VStr phone →
  prop "email" v = VStr email →
  prop "relation" v = optional_nullable VStr relation →
  prop "confirmPassword" v = VStr confirmPassword →
  password ≠ confirmPassword →
  {| code := custom; path := ["confirmPassword"]; message := "Passwords do not match" |}
    ∈ issues_of (caregiverFormSchema v).
Proof.
  intros [fields ->] Hu Hp Hf Hph He Hr Hcp Hne.
  unfold caregiverFormSchema, refine, z_object.
  rewrite (proj2 (field_accepts "username" _ _ _) (proj2 (z_string_accepts _ _) Hu)).
  rewrite (proj2 (field_accepts "fullName" _ _ _) (proj2 (z_string_accepts _ _) Hf)).
  rewrite (proj2 (field_accepts "phone" _ _ _)
             (proj2 (optional_nullable_string_OK _ _) Hph)).
  rewrite (proj2 (field_accepts "relation" _ _ _)
             (proj2 (optional_nullable_string_OK _ _) Hr)).
  rewrite (proj2 (field_accepts "confirmPassword" _ _ _)
             (proj2 (z_string_accepts _ _) Hcp)).
  unfold field. rewrite Hp, He. simpl.
  destruct (bool_decide (8 ≤ String.length password)%nat), (zod_email email); simpl;
    rewrite bool_decide_false by done; simpl;
    repeat first [apply list_elem_of_here | apply list_elem_of_further].
Qed.

(** X6: the form schema only adds to [caregiverSchema]: what it accepts,
    [caregiverSchema] accepts too, and gives the form without its
    [confirmPassword]. *)
Theorem caregiverFormSchema_refines_caregiverSchema v form :
  caregiverFormSchema v = OK form →
  caregiverSchema v = OK (CaregiverForm.caregiverData form).
Proof.
  intros ([fields ->] & Hu & Hp & _ & Hf & Hph & He & _ & Hr & _)%caregiverFormSchema_inv.
  unfold caregiverSchema, z_object.
  rewrite (proj2 (field_accepts "username" _ _ _) (proj2 (z_string_accepts _ _) Hu)).
  rewrite (proj2 (field_accepts "password" _ _ _) (proj2 (z_string_accepts _ _) Hp)).
  rewrite (proj2 (field_accepts "fullName" _ _ _) (proj2 (z_string_accepts _ _) Hf)).
  rewrite (proj2 (field_accepts "phone" _ _ _)
             (proj2 (optional_nullable_string_OK _ _) Hph)).
  rewrite (proj2 (field_accepts "email" _ _ _) (proj2 (z_string_accepts _ _) He)).
  rewrite (proj2 (field_accepts "relation" _ _ _)
             (proj2 (optional_nullable_string_OK _ _) Hr)).
  done.
Qed.
End schema_issues.

(** ** More on the routes *)

Section route_behaviour.
Context `{!Externals}.

(** X1: without a session every protected route answers 401 with
    [{ error: "Unauthorized" }]; the handler behind the middleware does
    not run: no call reaches the store, whatever the path and body. *)
Theorem protected_routes_unauthenticated :
  Forall (λ h : Handler,
    ∀ req w, user req = None →
      h req w = (status_json 401 (error "Unauthorized"), w)) protected_routes.
Proof.
  unfold protected_routes.
  repeat apply Forall_cons_2; [..|apply Forall_nil_2]; intros req w Hu;
    unfold get_medications, get_medication, post_medications, put_medication,
      delete_medication, get_medication_reminders, put_reminder, get_caregivers,
      post_caregivers, put_caregiver_access, ensureAuthenticated;
    by rewrite Hu.
Qed.

(** X8: [POST /api/medications] is all or nothing.  With a store that
    does not fail, it answers an authenticated user with 201; or with
    400 and at least one validation issue; or, when [new Date] throws
    on the body's [startTime], with 500.  In the last two cases it has
    made no call on the store. *)
Theorem post_medications_all_or_nothing req u w :
  user req = Some u →
  let startTime := prop "startTime" (spread (body req)) in
  status (post_medications req w).1 = 201 ∨
  (∃ issues,
     issues ≠ [] ∧
     post_medications req w = (status_json 400 (errors issues), w)) ∨
  (js_Date startTime = None ∧ js_Date_throws startTime = true ∧
   post_medications req w =
     (status_json 500 (error "Failed to create medication"), w)).
Proof.
  intros Hu startTime. rewrite (post_medications_authenticated req u w Hu).
  set (input := VObj (set_prop "userId" (VNum (User.id u)) (own_props (body req)))).
  assert (prop "startTime" input = startTime) as Hst
    by (unfold input; by rewrite prop_set_prop_ne).
  destruct (z_coerce_date startTime) eqn:Hdate.
  4:{ right; right. unfold input in *.
      rewrite (proj2 (medicationFormSchema_thrown _)) by (by rewrite Hst).
      by apply z_coerce_date_thrown in Hdate as [? ?]. }
  all: pose proof (medicationFormSchema_reported input) as Hrep;
    rewrite Hst, Hdate in Hrep; specialize (Hrep ltac:(done));
    destruct (medicationFormSchema input) as [data|a' issues'|issues'|];
    [by left|right; left; by exists issues'..|destruct Hrep].
Qed.

(** X9: [POST /api/medications] reads six keys of the body and nothing
    else: two requests of the same user whose bodies agree on [name],
    [dosage], [frequency], [startTime], [notes] and [active] get the
    same answer and leave the same store, whatever [userId], [id],
    [createdAt] or other keys they carry. *)
Theorem post_medications_reads_form_keys req req' w :
  user req = user req' →
  Forall (λ k, prop k (spread (body req)) = prop k (spread (body req')))
         medication_form_keys →
  post_medications req w = post_medications req' w.
Proof.
  intros Hu Hkeys. destruct (user req) as [u|] eqn:Hu1.
  2:{ unfold post_medications, ensureAuthenticated. by rewrite Hu1, <- Hu. }
  rewrite (post_medications_authenticated req u w Hu1).
  rewrite (post_medications_authenticated req' u w) by done.
  unfold medication_form_keys, spread in Hkeys.
  repeat (let K := fresh "K" in apply Forall_cons in Hkeys as [K Hkeys]).
  assert (medicationFormSchema
            (VObj (set_prop "userId" (VNum (User.id u)) (own_props (body req)))) =
          medicationFormSchema
            (VObj (set_prop "userId" (VNum (User.id u)) (own_props (body req'))))) as ->;
    [|done].
  unfold medicationFormSchema, z_object, field.
  rewrite !prop_set_prop, !prop_set_prop_ne by done.
  by rewrite K, K0, K1, K2, K3, K4.
Qed.

(** X10: [PUT /api/medications/:id] cannot take a [startTime] from a JSON
    body: the partial schema wants a [Date] object there, so the
    owner's request with any other [startTime] is answered 400 with an
    issue at path [startTime], and nothing is written. *)
Theorem put_medication_startTime_rejected req u w m :
  user req = Some u →
  Db.getMedication (parseInt (params_id req)) (store w) = Some m →
  Medication.userId m = User.id u →
  prop "startTime" (body req) ≠ VUndefined →
  (∀ t, prop "startTime" (body req) ≠ VDate t) →
  store (put_medication req w).2 = store w ∧
  ∃ issues i,
    (put_medication req w).1 = status_json 400 (errors issues) ∧
    i ∈ issues ∧ code i = invalid_type ∧ path i = ["startTime"].
Proof.
  intros Hu Hm Ho Hdef Hdate.
  rewrite (put_medication_owner req u w m) by done.
  assert (∃ i, i ∈ issues_of (medicationSchema_partial (body req)) ∧
               code i = invalid_type ∧ path i = ["startTime"]) as (i & Hi & Hcode & Hpath).
  { destruct (body req) as [| | | | | | |fields] eqn:Hb; try by destruct Hdef.
    unfold medicationSchema_partial, z_object.
    rewrite !issues_of_ap, issues_of_map by (by reported_schema).
    unfold field. destruct (prop "startTime" (VObj fields)) eqn:Hst;
      try (by destruct Hdef); try (by destruct (Hdate t));
      (eexists; split;
       [do 2 (apply elem_of_app; left); apply elem_of_app; right;
        simpl; apply list_elem_of_here|done]). }
  destruct (medicationSchema_partial (body req)) as [data|a issues|issues|]; simpl in *.
  - by apply elem_of_nil in Hi.
  - split; [done|]. by exists issues, i.
  - split; [done|]. by exists issues, i.
  - by apply elem_of_nil in Hi.
Qed.

(** X11: the owner's [PUT /api/medications/:id] with a valid body that has
    no [userId] answers 200 and keeps the medication the owner's: its
    [userId], [id] and [createdAt] are as before, and no other
    medication is touched. *)
Theorem put_medication_keeps_owner req u w k m data :
  user req = Some u →
  parseInt (params_id req) = Some k →
  medications (store w) !! k = Some m →
  Medication.userId m = User.id u →
  medicationSchema_partial (body req) = OK data →
  prop "userId" (body req) = VUndefined →
  status (put_medication req w).1 = 200 ∧
  (∃ m', medications (store (put_medication req w).2) !! k = Some m' ∧
         payload (put_medication req w).1 = Some (Medication.to_json m') ∧
         Medication.userId m' = Medication.userId m ∧
         Medication.id m' = Medication.id m ∧
         Medication.createdAt m' = Medication.createdAt m) ∧
  ∀ k', k' ≠ k →
    medications (store (put_medication req w).2) !! k' = medications (store w) !! k'.
Proof.
  intros Hu Hk Hm Ho Hdata Hundef.
  assert (PartialMedication.userId data = None) as Hid.
  { revert Hdata Hundef. generalize (body req). intros v Hs Hundef.
    unfold medicationSchema_partial in Hs. invert_object Hs.
    rewrite Hundef in Hs. by injection Hs as <-. }
  rewrite (put_medication_owner req u w m) by (by rewrite ?Hk).
  rewrite Hdata, Hk. unfold Db.updateMedication, Db.getMedication. simpl.
  rewrite Hm, Hid. simpl. split_and!; [done| |].
  - eexists. rewrite lookup_insert_eq. done.
  - intros k' Hne. by rewrite lookup_insert_ne.
Qed.

Lemma getMedicationReminders_none st k :
  (∀ j r, medicationReminders st !! j = Some r → MedicationReminder.medicationId r ≠ k) →
  Db.getMedicationReminders (Some k) st = [].
Proof.
  intros Hnone. unfold Db.getMedicationReminders.
  destruct (filter _ _) as [|r rs] eqn:Hf; [done|].
  assert (r ∈ filter (λ r, Some (MedicationReminder.medicationId r) = Some k)
                     (map_to_list (medicationReminders st)).*2) as Hr
    by (rewrite Hf; apply list_elem_of_here).
  apply list_elem_of_filter in Hr as [[= Hk] Hin].
  apply list_elem_of_fmap in Hin as ([j r'] & -> & Hin%elem_of_map_to_list).
  by destruct (Hnone j r').
Qed.

(** X12: the owner's [DELETE /api/medications/:id], for a medication that
    no reminder refers to, answers 204 with no body; afterwards the
    four routes on that medication answer 404 to any user.  The other
    medications and the reminders are as before. *)
Theorem delete_medication_then_not_found req u w k m :
  user req = Some u →
  parseInt (params_id req) = Some k →
  medications (store w) !! k = Some m →
  Medication.userId m = User.id u →
  (∀ j r, medicationReminders (store w) !! j = Some r →
          MedicationReminder.medicationId r ≠ k) →
  (delete_medication req w).1 = status_send 204 ∧
  (∀ h req' u',
     h ∈ medication_routes →
     user req' = Some u' →
     parseInt (params_id req') = Some k →
     status (h req' (delete_medication req w).2).1 = 404) ∧
  (∀ k', k' ≠ k →
     medications (store (delete_medication req w).2) !! k' = medications (store w) !! k') ∧
  medicationReminders (store (delete_medication req w).2) = medicationReminders (store w).
Proof.
  intros Hu Hk Hm Ho Hnone.
  rewrite (delete_medication_owner req u w m k) by done.
  rewrite (deleteMedication_unreferenced _ k m) by
    (done || by apply getMedicationReminders_none).
  simpl. split_and!; [done| | |done].
  - intros h req' u' Hh Hu' Hk'.
    rewrite (medication_route_not_found h req' u'); [done..|].
    rewrite Hk'. simpl. apply lookup_delete_eq.
  - intros k' Hne. by rewrite lookup_delete_ne.
Qed.
End route_behaviour.

Section update_routes.
Context `{!Externals}.

(** What [PUT /api/reminders/:id] does for an authenticated user whose
    request has a body. *)
Lemma put_reminder_authenticated req u w :
  user req = Some u →
  nullish (body req) = false →
  let id := parseInt (params_id req) in
  let taken := prop "taken" (body req) in
  let skipped := prop "skipped" (body req) in
  let updated := Db.updateMedicationReminder id taken skipped (store w) in
  put_reminder req w =
    match updated.1 with
    | None =>
        (status_json 404 (error "Reminder not found"),
         {| store := updated.2;
            calls := calls w ++ [UpdateMedicationReminder id taken skipped] |})
    | Some r =>
        let owner := Some (MedicationReminder.medicationId r) in
        (match Db.getMedication owner updated.2 with
         | Some m =>
             if bool_decide (Medication.userId m ≠ User.id u)
             then status_json 403 (error "Unauthorized access to reminder")
             else json (MedicationReminder.to_json r)
         | None => status_json 403 (error "Unauthorized access to reminder")
         end,
         {| store := updated.2;
            calls := calls w ++ [UpdateMedicationReminder id taken skipped;
                                 GetMedication owner] |})
    end.
Proof.
  intros Hu Hb id taken skipped updated. enter put_reminder. rewrite Hu.
  subst updated taken skipped id.
  destruct (body req) eqn:Eb; try discriminate Hb; run;
    (destruct (Db.updateMedicationReminder _ _ _ (store w)) as [[r|] st]; run;
     [|done]; rewrite <- app_assoc;
     destruct (Db.getMedication _ st) as [m|]; [|done];
     by destruct (bool_decide _)).
Qed.

(** What [PUT /api/caregivers/:id/access] does for an authenticated
    user whose request has a body. *)
Lemma put_caregiver_access_authenticated req u w :
  user req = Some u →
  nullish (body req) = false →
  let id := parseInt (params_id req) in
  let accessLevel := prop "accessLevel" (body req) in
  let active := prop "active" (body req) in
  let updated := Db.updateCaregiverAccess id accessLevel active (store w) in
  put_caregiver_access req w =
    (match updated.1 with
     | None => status_json 404 (error "Caregiver link not found")
     | Some l =>
         if bool_decide (UserCaregiver.userId l ≠ User.id u)
         then status_json 403 (error "Unauthorized access to caregiver")
         else json (UserCaregiver.to_json l)
     end,
     {| store := updated.2;
        calls := calls w ++ [UpdateCaregiverAccess id accessLevel active] |}).
Proof.
  intros Hu Hb id accessLevel active updated. enter put_caregiver_access. rewrite Hu.
  subst updated accessLevel active id.
  destruct (body req) eqn:Eb; try discriminate Hb; run;
    (destruct (Db.updateCaregiverAccess _ _ _ (store w)) as [[l|] st]; run;
     [|done]; by destruct (bool_decide _)).
Qed.

(** X13: who asks has no part in what the two update routes store: for an
    authenticated user, the store after [PUT /api/reminders/:id] is the
    store after the update of the reminder, and the store after
    [PUT /api/caregivers/:id/access] the store after the update of the
    link, whether the answer is 200, 403 or 404. *)
Theorem update_routes_store req u w :
  user req = Some u →
  nullish (body req) = false →
  let id := parseInt (params_id req) in
  store (put_reminder req w).2 =
    (Db.updateMedicationReminder id (prop "taken" (body req))
       (prop "skipped" (body req)) (store w)).2 ∧
  store (put_caregiver_access req w).2 =
    (Db.updateCaregiverAccess id (prop "accessLevel" (body req))
       (prop "active" (body req)) (store w)).2.
Proof.
  intros Hu Hb id. split.
  - rewrite (put_reminder_authenticated req u w Hu Hb). cbv zeta.
    by destruct (Db.updateMedicationReminder _ _ _ _).1.
  - by rewrite (put_caregiver_access_authenticated req u w Hu Hb).
Qed.

(** X14: the two update routes answer 500 exactly when the request has no
    body to take the properties from, and then nothing has reached the
    store. *)
Theorem update_routes_500 req u w :
  user req = Some u →
  (status (put_reminder req w).1 = 500 ↔ nullish (body req) = true) ∧
  (status (put_caregiver_access req w).1 = 500 ↔ nullish (body req) = true) ∧
  (nullish (body req) = true →
     (put_reminder req w).2 = w ∧ (put_caregiver_access req w).2 = w).
Proof.
  intros Hu. destruct (nullish (body req)) eqn:Hb.
  - assert (put_reminder req w = (status_json 500 (error "Failed to update reminder"), w)
            ∧ put_caregiver_access req w =
                (status_json 500 (error "Failed to update caregiver access"), w))
      as [-> ->].
    { enter put_reminder. enter put_caregiver_access. rewrite Hu.
      by destruct (body req); try discriminate Hb; run. }
    done.
  - rewrite (put_reminder_authenticated req u w Hu Hb).
    rewrite (put_caregiver_access_authenticated req u w Hu Hb). cbv zeta.
    split_and!; [split; [|done]|split; [|done]|done].
    + destruct (Db.updateMedicationReminder _ _ _ _).1; [|done]. cbv zeta.
      cbn [fst]. destruct (Db.getMedication _ _); [|done]. by destruct (bool_decide _).
    + cbn [fst]. destruct (Db.updateCaregiverAccess _ _ _ _).1; [|done].
      by destruct (bool_decide _).
Qed.
End update_routes.

Section orphan.
Context `{!Externals}.

(** X15: a caregiver creation can stop half way.  When the form is valid and
    the username free, but [accessLevel] is truthy and not a string,
    the caregiver is stored, the link is refused by its schema and the
    answer is 400: no link is made, and the same request sent again is
    turned down because the username now exists. *)
Theorem post_caregivers_half_done req u w form :
  user req = Some u →
  caregiverFormSchema (body req) = OK form →
  Db.getCaregiverByUsername (CaregiverForm.username form) (store w) = None →
  truthy (prop "accessLevel" (body req)) = true →
  (∀ s, prop "accessLevel" (body req) ≠ VStr s) →
  status (post_caregivers req w).1 = 400 ∧
  (∃ c, caregivers (store (post_caregivers req w).2) !! caregivers_seq (store w) = Some c ∧
        Caregiver.username c = CaregiverForm.username form) ∧
  userCaregivers (store (post_caregivers req w).2) = userCaregivers (store w) ∧
  (post_caregivers req (post_caregivers req w).2).1 =
    status_json 400 (error "Username already exists").
Proof.
  intros Hu Hform Hfree Htruthy Hstr.
  rewrite (post_caregivers_authenticated req u w Hu), Hform. cbv zeta.
  replace (InsertCaregiver.username (CaregiverForm.caregiverData form))
    with (CaregiverForm.username form) by done.
  rewrite Hfree.
  destruct (userCaregiverSchema _) as [link|a issues|issues|] eqn:Hlink.
  { apply userCaregiverSchema_OK in Hlink as (_ & _ & Hlevel & _).
    destruct Hlevel as (s & Hs & _); [apply js_or_full_defined|].
    simpl in Hs. unfold js_or in Hs. rewrite Htruthy in Hs. by destruct (Hstr s). }
  all: simpl; split_and!; [done|eexists; split; [apply lookup_insert_eq|done]|done|];
    rewrite (post_caregivers_authenticated req u _ Hu), Hform; cbv zeta;
    match goal with
    | |- context [Db.getCaregiverByUsername ?n ?st] =>
        destruct (getCaregiverByUsername_exists st (caregivers_seq (store w))
                    (Db.createCaregiver (CaregiverForm.caregiverData form) (store w)).1)
          as [c' Hc']; [apply lookup_insert_eq|]
    end;
    simpl in Hc'; simpl; by rewrite Hc'.
Qed.
End orphan.

(** ** Ids in the path *)

Lemma digit_value_pretty d :
  (d < 10)%N → digit_value 10 (pretty_N_char d) = Some (Z.of_N d).
Proof.
  intros Hd.
  assert (d = 0 ∨ d = 1 ∨ d = 2 ∨ d = 3 ∨ d = 4 ∨ d = 5 ∨ d = 6 ∨ d = 7
          ∨ d = 8 ∨ d = 9)%N as Hcases by lia.
  repeat (destruct Hcases as [->|Hcases]; [reflexivity|]). by subst.
Qed.

(** Reading back the digits that [pretty] wrote in front of [s]. *)
Lemma digits_pretty_N_go x s :
  digits 10 (pretty_N_go x s) None =
  digits 10 s (if decide (x = 0%N) then None else Some (Z.of_N x)).
Proof.
  revert s. induction (N.lt_wf_0 x) as [x _ IH]. intros s.
  destruct (decide (x = 0%N)) as [->|Hx]; [done|].
  rewrite pretty_N_go_step by lia.
  rewrite IH by (apply N.div_lt; lia).
  cbn [digits]. rewrite digit_value_pretty by (apply N.mod_lt; lia).
  f_equal. f_equal.
  pose proof (N.div_mod x 10 ltac:(lia)) as Hdm.
  clear IH. set (q := (x `div` 10)%N) in *. set (r := (x `mod` 10)%N) in *.
  clearbody q r. case_decide as Hq; simpl; lia.
Qed.

(** What [pretty] writes for a positive number starts with a digit
    from 1 to 9. *)
Lemma pretty_N_go_head x s :
  (0 < x)%N →
  ∃ d rest, (1 ≤ d ≤ 9)%N ∧ pretty_N_go x s = String (pretty_N_char d) rest.
Proof.
  revert s. induction (N.lt_wf_0 x) as [x _ IH]. intros s Hx.
  rewrite pretty_N_go_step by done.
  destruct (decide (x `div` 10 = 0)%N) as [Hq|Hq].
  - rewrite Hq, pretty_N_go_0. exists (x `mod` 10)%N, s. split; [|done].
    pose proof (N.div_mod x 10 ltac:(lia)) as Hdm.
    pose proof (N.mod_lt x 10 ltac:(lia)) as Hlt.
    set (r := (x `mod` 10)%N) in *. clearbody r. lia.
  - apply IH; [apply N.div_lt; lia|by apply N.neq_0_lt_0].
Qed.

Lemma parseInt_head d rest :
  (1 ≤ d ≤ 9)%N →
  parseInt (String (pretty_N_char d) rest)
    = digits 10 (String (pretty_N_char d) rest) None ∧
  parseInt (String "-" (String (pretty_N_char d) rest))
    = Z.opp <$> digits 10 (String (pretty_N_char d) rest) None.
Proof.
  intros Hd.
  assert (d = 1 ∨ d = 2 ∨ d = 3 ∨ d = 4 ∨ d = 5 ∨ d = 6 ∨ d = 7 ∨ d = 8 ∨ d = 9)%N
    as Hcases by lia.
  repeat (destruct Hcases as [->|Hcases]);
    subst; unfold parseInt; simpl;
    (destruct (digits _ _ _) as [z|]; simpl; [|done]; split; f_equal; lia).
Qed.

Lemma decimal_id (k : Z) : parseInt (pretty k) = Some k.
Proof.
  destruct k as [|p|p]; [done|..]; unfold pretty, pretty_Z.
  - unfold pretty, pretty_positive, pretty, pretty_N.
    rewrite decide_False by done.
    destruct (pretty_N_go_head (N.pos p) "") as (d & rest & Hd & Heq); [lia|].
    rewrite Heq, (proj1 (parseInt_head d rest Hd)), <- Heq.
    rewrite digits_pretty_N_go. by rewrite decide_False.
  - unfold pretty, pretty_positive, pretty, pretty_N.
    rewrite decide_False by done.
    destruct (pretty_N_go_head (N.pos p) "") as (d & rest & Hd & Heq); [lia|].
    change ("-" +:+ pretty_N_go (N.pos p) "")
      with (String "-" (pretty_N_go (N.pos p) "")).
    rewrite Heq, (proj2 (parseInt_head d rest Hd)), <- Heq.
    rewrite digits_pretty_N_go. by rewrite decide_False.
Qed.

Lemma pretty_N_go_app x s t : pretty_N_go x s +:+ t = pretty_N_go x (s +:+ t).
Proof.
  revert s. induction (N.lt_wf_0 x) as [x _ IH]. intros s.
  destruct (decide (x = 0%N)) as [->|Hx]; [done|].
  rewrite (pretty_N_go_step x s), (pretty_N_go_step x (s +:+ t)) by lia.
  by rewrite IH by (apply N.div_lt; lia).
Qed.

Lemma decimal_id_prefix (k : Z) c rest :
  k ≠ 0 →
  digit_value 10 c = None →
  parseInt (pretty k +:+ String c rest) = Some k.
Proof.
  intros Hk Hc. destruct k as [|p|p]; [done|..]; unfold pretty, pretty_Z.
  - unfold pretty, pretty_positive, pretty, pretty_N.
    rewrite decide_False by done. rewrite pretty_N_go_app.
    destruct (pretty_N_go_head (N.pos p) ("" +:+ String c rest))
      as (d & rest' & Hd & Heq); [lia|].
    rewrite Heq, (proj1 (parseInt_head d rest' Hd)), <- Heq.
    rewrite digits_pretty_N_go, decide_False by done.
    simpl. by rewrite Hc.
  - unfold pretty, pretty_positive, pretty, pretty_N.
    rewrite decide_False by done.
    change (("-" +:+ pretty_N_go (N.pos p) "") +:+ String c rest)
      with (String "-" (pretty_N_go (N.pos p) "" +:+ String c rest)).
    rewrite pretty_N_go_app.
    destruct (pretty_N_go_head (N.pos p) ("" +:+ String c rest))
      as (d & rest' & Hd & Heq); [lia|].
    rewrite Heq, (proj2 (parseInt_head d rest' Hd)), <- Heq.
    rewrite digits_pretty_N_go, decide_False by done.
    simpl. by rewrite Hc.
Qed.

Section by_id.
Context `{!Externals}.

(** X17: [GET /api/medications/:id] does not ask that the path segment be a
    number through and through: it reads the digits it starts with.
    The owner who asks for the decimal id of a stored medication (an id
    below 2^53, as every serial id is) followed by anything that
    starts with a character that is no digit, [12abc] say, is answered
    200 with that medication. *)
Theorem get_medication_ignores_suffix req u w k m c rest :
  user req = Some u →
  0 < k < 2 ^ 53 →
  digit_value 10 c = None →
  params_id req = pretty k +:+ String c rest →
  medications (store w) !! k = Some m →
  Medication.userId m = User.id u →
  get_medication req w =
    (json (Medication.to_json m),
     {| store := store w; calls := calls w ++ [GetMedication (Some k)] |}).
Proof.
  intros Hu Hk Hc Hid Hm Ho.
  rewrite (get_medication_owner req u w m);
    rewrite ?Hid, ?decimal_id_prefix; done || lia.
Qed.

(** X18: the owner who asks for [/api/medications/<id>], the id written in
    decimal, is answered 200 with the medication stored under it. *)
Theorem get_medication_by_decimal_id req u w k m :
  user req = Some u →
  params_id req = pretty k →
  medications (store w) !! k = Some m →
  Medication.userId m = User.id u →
  get_medication req w =
    (json (Medication.to_json m),
     {| store := store w; calls := calls w ++ [GetMedication (Some k)] |}).
Proof.
  intros Hu Hid Hm Ho.
  rewrite (get_medication_owner req u w m); rewrite ?Hid, ?decimal_id; done.
Qed.
End by_id.

(** ** Creating, then reading *)

Section composition.
Context `{!Externals}.

Lemma userCaregiverSchema_accepts v data :
  userCaregiverSchema v = OK data ↔
    (∃ fields, v = VObj fields) ∧
    prop "userId" v = VNum (InsertUserCaregiver.userId data) ∧
    zod_integer (InsertUserCaregiver.userId data) = [] ∧
    prop "caregiverId" v = VNum (InsertUserCaregiver.caregiverId data) ∧
    zod_integer (InsertUserCaregiver.caregiverId data) = [] ∧
    optional z_string (prop "accessLevel" v) = OK (InsertUserCaregiver.accessLevel data) ∧
    prop "active" v = optional_nullable VBool (InsertUserCaregiver.active data).
Proof.
  unfold userCaregiverSchema. split.
  - intros Hs. apply z_object_OK in Hs as [Hobj Hs]. split; [done|].
    cbv beta in Hs.
    repeat (let F := fresh "F" in
            apply pr_ap_OK in Hs as (? & ? & Hs & F%field_OK & ->)).
    apply pr_map_OK in Hs as (? & Hs%field_OK & ->). simpl.
    apply z_integer_OK in Hs as [Hs ?], F1 as [F1 ?].
    apply optional_nullable_boolean_OK in F. done.
  - intros ([fields ->] & Hu & Hui & Hc & Hci & Hlevel & Hact).
    unfold z_object.
    rewrite (proj2 (field_accepts "userId" _ _ _)
               (proj2 (z_integer_accepts _ _) (conj Hu Hui))).
    rewrite (proj2 (field_accepts "caregiverId" _ _ _)
               (proj2 (z_integer_accepts _ _) (conj Hc Hci))).
    rewrite (proj2 (field_accepts "accessLevel" _ _ _) Hlevel).
    rewrite (proj2 (field_accepts "active" _ _ _)
               (proj2 (optional_nullable_boolean_OK _ _) Hact)).
    simpl. by destruct data.
Qed.

(** X16: when [POST /api/caregivers] succeeds, exactly: the request has a
    session, the form is valid, no caregiver has the username, the two
    ids pass the integer column's checks, and [accessLevel] is either
    falsy or a string. *)
Theorem post_caregivers_succeeds_iff req w :
  status (post_caregivers req w).1 = 201 ↔
  ∃ u form,
    user req = Some u ∧
    caregiverFormSchema (body req) = OK form ∧
    Db.getCaregiverByUsername (CaregiverForm.username form) (store w) = None ∧
    zod_integer (User.id u) = [] ∧
    zod_integer (caregivers_seq (store w)) = [] ∧
    (truthy (prop "accessLevel" (body req)) = false ∨
     ∃ s, prop "accessLevel" (body req) = VStr s).
Proof.
  split.
  - destruct (user req) as [u|] eqn:Hu.
    2:{ unfold post_caregivers, ensureAuthenticated. by rewrite Hu. }
    rewrite (post_caregivers_authenticated req u w Hu).
    destruct (caregiverFormSchema (body req)) as [form| | |] eqn:Hform; [|done..].
    cbv zeta.
    replace (InsertCaregiver.username (CaregiverForm.caregiverData form))
      with (CaregiverForm.username form) by done.
    destruct (Db.getCaregiverByUsername _ (store w)) eqn:Hfree; [done|].
    destruct (userCaregiverSchema _) as [link| | |] eqn:Hlink; [|done..].
    intros _. exists u, form.
    apply userCaregiverSchema_accepts in Hlink
      as (_ & Hid & Hidok & Hcid & Hcidok & Hlevel & _).
    simpl in Hid, Hcid, Hlevel. injection Hid as Hid. injection Hcid as Hcid.
    rewrite <- Hid in Hidok. rewrite <- Hcid in Hcidok.
    split_and!; [done..|].
    unfold js_or in Hlevel.
    destruct (truthy (prop "accessLevel" (body req))) eqn:Ht; [right|by left].
    destruct (prop "accessLevel" (body req)); try done. by eexists.
  - intros (u & form & Hu & Hform & Hfree & Hidok & Hcidok & Hlevel).
    rewrite (post_caregivers_authenticated req u w Hu), Hform. cbv zeta.
    replace (InsertCaregiver.username (CaregiverForm.caregiverData form))
      with (CaregiverForm.username form) by done.
    rewrite Hfree.
    assert (∃ s, js_or (prop "accessLevel" (body req)) (VStr "full") = VStr s)
      as [s Hs].
    { unfold js_or. destruct Hlevel as [->|[s ->]]; [by eexists|].
      destruct (truthy (VStr s)); by eexists. }
    rewrite (proj2 (userCaregiverSchema_accepts _
      {| InsertUserCaregiver.userId := User.id u;
         InsertUserCaregiver.caregiverId := caregivers_seq (store w);
         InsertUserCaregiver.accessLevel := Some s;
         InsertUserCaregiver.active := Some (Some true) |})); [done|].
    simpl. rewrite Hs. split_and!; eauto.
Qed.

(** X19: a medication that [POST /api/medications] created is what its
    creator then gets from [GET /api/medications/<id>], the id being
    the one of the 201 answer written in decimal: the same JSON, with
    status 200.  Any other user is answered 403 there. *)
Theorem post_then_get_medication req u w req' :
  user req = Some u →
  status (post_medications req w).1 = 201 →
  params_id req' = pretty (medications_seq (store w)) →
  (user req' = Some u →
     status (get_medication req' (post_medications req w).2).1 = 200 ∧
     payload (get_medication req' (post_medications req w).2).1
       = payload (post_medications req w).1) ∧
  (∀ u', user req' = Some u' → User.id u' ≠ User.id u →
     status (get_medication req' (post_medications req w).2).1 = 403).
Proof.
  intros Hu H201 Hid.
  rewrite (post_medications_authenticated req u w Hu) in *.
  destruct (medicationFormSchema _) as [data| | |] eqn:Hdata; [|done..].
  apply medicationFormSchema_OK in Hdata. rewrite prop_set_prop in Hdata.
  injection Hdata as Hdata.
  pose proof (decimal_id (medications_seq (store w))) as Hparse.
  rewrite <- Hid in Hparse.
  set (m := (Db.createMedication data (store w)).1).
  cbn [fst snd].
  set (w1 := {| store := (Db.createMedication data (store w)).2;
                calls := calls w ++ [CreateMedication data] |}).
  assert (Db.getMedication (parseInt (params_id req')) (store w1) = Some m) as Hm.
  { rewrite Hparse. simpl. apply lookup_insert_eq. }
  split.
  - intros Hu'. by rewrite (get_medication_owner req' u w1 m Hu' Hm).
  - intros u' Hu' Hne.
    rewrite (medication_route_forbidden get_medication req' u' w1 m); [done| |done..|].
    + unfold medication_routes. set_solver.
    + simpl. congruence.
Qed.
End composition.

(** ** The partial schema *)

Section partial.
Context `{!Externals}.

(** X7: [medicationSchema.partial()] takes everything [medicationSchema]
    takes, and gives the same values, each one present; and it takes
    the empty object, with every key absent. *)
Theorem medicationSchema_partial_extends v data :
  (medicationSchema v = OK data →
   medicationSchema_partial v =
     OK {| PartialMedication.userId := Some (InsertMedication.userId data);
           PartialMedication.name := Some (InsertMedication.name data);
           PartialMedication.dosage := Some (InsertMedication.dosage data);
           PartialMedication.frequency := Some (InsertMedication.frequency data);
           PartialMedication.startTime := Some (InsertMedication.startTime data);
           PartialMedication.notes := InsertMedication.notes data;
           PartialMedication.active := InsertMedication.active data |}) ∧
  medicationSchema_partial (VObj []) =
    OK {| PartialMedication.userId := None; PartialMedication.name := None;
          PartialMedication.dosage := None; PartialMedication.frequency := None;
          PartialMedication.startTime := None; PartialMedication.notes := None;
          PartialMedication.active := None |}.
Proof.
  split; [|done]. unfold medicationSchema. intros Hs.
  apply z_object_OK in Hs as [[fields ->] Hs]. cbv beta in Hs.
  repeat (let F := fresh "F" in
          apply pr_ap_OK in Hs as (? & ? & Hs & F%field_OK & ->)).
  apply pr_map_OK in Hs as (? & Hs%field_OK & ->).
  unfold medicationSchema_partial, z_object, field.
  apply z_integer_OK in Hs as [Hs Hint]. apply z_string_OK in F3, F4.
  apply z_frequency_iff in F2.
  assert (∃ t, prop "startTime" (VObj fields) = VDate t ∧ x3 = t) as (t & Ht & ->).
  { destruct (prop "startTime" (VObj fields)); try done. injection F1 as <-. eauto. }
  rewrite F, F0, Hs, F3, F4, F2, Ht. simpl.
  by rewrite Hint, frequency_of_to_string.
Qed.
End partial.

(** ** The worked instance, continued *)

Section more_examples.
Local Existing Instance example_externals.

Lemma protected_routes_unauthenticated_witness :
  Forall (λ h : Handler,
    h {| user := None; params_id := "1"; body := VObj [] |} example_world
      = (status_json 401 (error "Unauthorized"), example_world))
    protected_routes.
Proof.
  eapply Forall_impl; [exact protected_routes_unauthenticated|].
  intros h Hh.
  exact (Hh {| user := None; params_id := "1"; body := VObj [] |} example_world eq_refl).
Defined.

Lemma caregiverFormSchema_short_password_witness :
  {| code := too_small; path := ["password"];
     message := "Password must be at least 8 characters" |}
    ∈ issues_of (caregiverFormSchema (VObj [("password", VStr "short")])).
Proof.
  apply (caregiverFormSchema_short_password [("password", VStr "short")] "short");
    [reflexivity|simpl; lia].
Defined.

Lemma caregiverFormSchema_mismatch_reported_witness :
  {| code := custom; path := ["confirmPassword"]; message := "Passwords do not match" |}
    ∈ issues_of (caregiverFormSchema
                   (VObj (("confirmPassword", VStr "davepass2")
                          :: ("email", VStr "nomail") :: dave_form))).
Proof.
  apply (caregiverFormSchema_mismatch_reported _
           "dave" "davepass1" "Dave Smith" "nomail" "davepass2" None None);
    [by eexists|reflexivity..|discriminate].
Defined.

Lemma caregiverFormSchema_refines_caregiverSchema_witness :
  ∃ form,
    caregiverFormSchema (VObj dave_form) = OK form ∧
    caregiverSchema (VObj dave_form) = OK (CaregiverForm.caregiverData form).
Proof.
  eexists. split; [vm_compute; reflexivity|].
  apply caregiverFormSchema_refines_caregiverSchema. vm_compute. reflexivity.
Defined.

Lemma post_medications_all_or_nothing_witness :
  let startTime := VObj [("toString", VNum 5)] in
  status (post_medications add_ibuprofen_bad_date example_world).1 = 201 ∨
  (∃ issues,
     issues ≠ [] ∧
     post_medications add_ibuprofen_bad_date example_world
       = (status_json 400 (errors issues), example_world)) ∨
  (js_Date startTime = None ∧ js_Date_throws startTime = true ∧
   post_medications add_ibuprofen_bad_date example_world =
     (status_json 500 (error "Failed to create medication"), example_world)).
Proof.
  exact (post_medications_all_or_nothing add_ibuprofen_bad_date bob example_world eq_refl).
Defined.

(** The three answers of [POST /api/medications]: a valid form, a form
    with no name, a form whose [startTime] makes [new Date] throw. *)
Example post_medications_answers :
  status (post_medications add_ibuprofen example_world).1 = 201 ∧
  status (post_medications
            {| user := Some bob; params_id := ""; body := VObj [] |}
            example_world).1 = 400 ∧
  post_medications add_ibuprofen_bad_date example_world =
    (status_json 500 (error "Failed to create medication"), example_world).
Proof. by vm_compute. Qed.

Lemma post_medications_reads_form_keys_witness :
  post_medications add_ibuprofen example_world
    = post_medications add_ibuprofen' example_world.
Proof.
  apply post_medications_reads_form_keys; [reflexivity|].
  repeat constructor.
Defined.

Lemma put_medication_startTime_rejected_witness :
  let req := {| user := Some alice; params_id := "1";
                body := VObj [("startTime", VStr "2024-01-01T08:00:00Z")] |} in
  store (put_medication req example_world).2 = example_store ∧
  ∃ issues i,
    (put_medication req example_world).1 = status_json 400 (errors issues) ∧
    i ∈ issues ∧ code i = invalid_type ∧ path i = ["startTime"].
Proof.
  apply (put_medication_startTime_rejected
           {| user := Some alice; params_id := "1";
              body := VObj [("startTime", VStr "2024-01-01T08:00:00Z")] |}
           alice example_world aspirin);
    [reflexivity..|discriminate|intros t; discriminate].
Defined.

Lemma put_medication_keeps_owner_witness :
  let req := {| user := Some alice; params_id := "1";
                body := VObj [("dosage", VStr "300mg")] |} in
  status (put_medication req example_world).1 = 200 ∧
  (∃ m', medications (store (put_medication req example_world).2) !! 1 = Some m' ∧
         payload (put_medication req example_world).1 = Some (Medication.to_json m') ∧
         Medication.userId m' = Medication.userId aspirin ∧
         Medication.id m' = Medication.id aspirin ∧
         Medication.createdAt m' = Medication.createdAt aspirin) ∧
  ∀ k', k' ≠ 1 →
    medications (store (put_medication req example_world).2) !! k'
      = medications example_store !! k'.
Proof.
  eapply (put_medication_keeps_owner
            {| user := Some alice; params_id := "1";
               body := VObj [("dosage", VStr "300mg")] |}
            alice example_world 1 aspirin);
    [reflexivity..|vm_compute; reflexivity|reflexivity].
Defined.

Lemma delete_medication_then_not_found_witness :
  let req := {| user := Some alice; params_id := "1"; body := VObj [] |} in
  let w := {| store := store_without_aspirin_reminder; calls := [] |} in
  (delete_medication req w).1 = status_send 204 ∧
  (∀ h req' u',
     h ∈ medication_routes →
     user req' = Some u' →
     parseInt (params_id req') = Some 1 →
     status (h req' (delete_medication req w).2).1 = 404) ∧
  (∀ k', k' ≠ 1 →
     medications (store (delete_medication req w).2) !! k'
       = medications store_without_aspirin_reminder !! k') ∧
  medicationReminders (store (delete_medication req w).2)
    = medicationReminders store_without_aspirin_reminder.
Proof.
  apply (delete_medication_then_not_found
           {| user := Some alice; params_id := "1"; body := VObj [] |}
           alice {| store := store_without_aspirin_reminder; calls := [] |} 1 aspirin);
    [reflexivity..|].
  intros j r Hr. change (({[ 2 := insulin_reminder ]} : gmap Z _) !! j = Some r) in Hr.
  apply lookup_singleton_Some in Hr as [<- <-]. discriminate.
Defined.

Lemma update_routes_store_witness :
  let req := {| user := Some alice; params_id := "2";
                body := VObj [("taken", VBool true)] |} in
  store (put_reminder req example_world).2 =
    (Db.updateMedicationReminder (Some 2) (VBool true) VUndefined example_store).2 ∧
  store (put_caregiver_access req example_world).2 =
    (Db.updateCaregiverAccess (Some 2) VUndefined VUndefined example_store).2.
Proof.
  apply (update_routes_store
           {| user := Some alice; params_id := "2";
              body := VObj [("taken", VBool true)] |}
           alice example_world); reflexivity.
Defined.

Lemma update_routes_500_witness :
  let req := {| user := Some alice; params_id := "1"; body := VUndefined |} in
  status (put_reminder req example_world).1 = 500 ∧
  status (put_caregiver_access req example_world).1 = 500 ∧
  (put_reminder req example_world).2 = example_world.
Proof.
  destruct (update_routes_500
              {| user := Some alice; params_id := "1"; body := VUndefined |}
              alice example_world eq_refl) as (Hr & Hc & Hw).
  destruct (Hw eq_refl) as [Hw1 _].
  split_and!; [by apply Hr|by apply Hc|exact Hw1].
Defined.

Lemma post_caregivers_half_done_witness :
  status (post_caregivers add_dave_level_5 example_world).1 = 400 ∧
  (∃ c, caregivers (store (post_caregivers add_dave_level_5 example_world).2) !! 2
          = Some c ∧
        Caregiver.username c = "dave") ∧
  userCaregivers (store (post_caregivers add_dave_level_5 example_world).2)
    = userCaregivers example_store ∧
  (post_caregivers add_dave_level_5
     (post_caregivers add_dave_level_5 example_world).2).1 =
    status_json 400 (error "Username already exists").
Proof.
  apply (post_caregivers_half_done add_dave_level_5 alice example_world
           {| CaregiverForm.username := "dave";
              CaregiverForm.password := "davepass1";
              CaregiverForm.fullName := "Dave Smith";
              CaregiverForm.phone := None;
              CaregiverForm.email := "dave@example.com";
              CaregiverForm.relation := None;
              CaregiverForm.confirmPassword := "davepass1" |});
    [reflexivity..|intros s; discriminate].
Defined.

Lemma get_medication_ignores_suffix_witness :
  get_medication {| user := Some alice; params_id := "1abc"; body := VUndefined |}
                 example_world =
    (json (Medication.to_json aspirin),
     {| store := example_store; calls := [GetMedication (Some 1)] |}).
Proof.
  apply (get_medication_ignores_suffix
           {| user := Some alice; params_id := "1abc"; body := VUndefined |}
           alice example_world 1 aspirin "a"%char "bc");
    [reflexivity|lia|reflexivity..].
Defined.

Lemma get_medication_by_decimal_id_witness :
  get_medication {| user := Some alice; params_id := "1"; body := VUndefined |}
                 example_world =
    (json (Medication.to_json aspirin),
     {| store := example_store; calls := [GetMedication (Some 1)] |}).
Proof.
  apply (get_medication_by_decimal_id
           {| user := Some alice; params_id := "1"; body := VUndefined |}
           alice example_world 1 aspirin); reflexivity.
Defined.

Lemma post_then_get_medication_witness :
  let req' := {| user := Some bob; params_id := "3"; body := VUndefined |} in
  status (get_medication req' (post_medications add_ibuprofen example_world).2).1 = 200 ∧
  payload (get_medication req' (post_medications add_ibuprofen example_world).2).1
    = payload (post_medications add_ibuprofen example_world).1.
Proof.
  apply (post_then_get_medication add_ibuprofen bob example_world
           {| user := Some bob; params_id := "3"; body := VUndefined |});
    reflexivity.
Defined.

Lemma medicationSchema_partial_extends_witness :
  let v := VObj [("userId", VNum 1); ("name", VStr "Aspirin"); ("dosage", VStr "100mg");
                 ("frequency", VStr "daily"); ("startTime", VDate 1700000000000)] in
  ∃ data, medicationSchema v = OK data ∧
          PartialMedication.name <$> medicationSchema_partial v
            = OK (Some (InsertMedication.name data)).
Proof.
  eexists. split; [vm_compute; reflexivity|].
  erewrite (proj1 (medicationSchema_partial_extends _ _)); [reflexivity|].
  vm_compute. reflexivity.
Defined.

Lemma post_caregivers_succeeds_iff_witness :
  status (post_caregivers add_dave example_world).1 = 201.
Proof.
  apply post_caregivers_succeeds_iff.
  eexists alice, _. split_and!;
    [reflexivity|vm_compute; reflexivity|reflexivity..|by left].
Defined.
End more_examples.
